(** * The software MMU of KVM/ARM: guest walker and shadow page tables

    A shallow embedding of [arch/arm/kvm/arm_mmu.c] (the ARMv6 build, that
    is the branches under [__LINUX_ARM_ARCH__ >= 6]) and of the parts of
    [asm/kvm_arm.h] it uses.  Machine words are integers of [Z] with the
    truncations of the C types written out; the host memory the code reaches
    through pointers is an explicit store: first-level root tables keyed by
    their address, second-level page frames keyed by their frame number. *)

From Stdlib Require Import ZArith Lia List Bool.
From stdpp Require Import base option list gmap fin_maps.
From coqutil Require Import Z.bitblast.

Local Open Scope Z_scope.

(** ** C integer types *)

Definition u8 (x : Z) : Z := x mod 2 ^ 8.
Definition u32 (x : Z) : Z := x mod 2 ^ 32.
Definition u64 (x : Z) : Z := x mod 2 ^ 64.

(** ** Error numbers (returned negated, as in the kernel) *)

Definition ENOMEM : Z := 12.
Definition EFAULT : Z := 14.
Definition EINVAL : Z := 22.

(** ** asm/kvm_arm.h *)

Definition FSR_TYPE_MASK : Z := 0xf.
Definition FSR_TRANS_SEC : Z := 0x5.
Definition FSR_TRANS_PAGE : Z := 0x7.
Definition FSR_DOMAIN_SEC : Z := 0x9.
Definition FSR_DOMAIN_PAG : Z := 0xb.
Definition FSR_PERM_SEC : Z := 0xd.
Definition FSR_PERM_PAGE : Z := 0xf.

Definition EXCEPTION_VECTOR_HIGH : Z := 0xffff0000.
Definition EXCEPTION_VECTOR_LOW : Z := 0x00000000.

(** ** asm/kvm_asm.h *)

Definition ARM_EXCEPTION_PREF_ABORT : Z := 3.
Definition ARM_EXCEPTION_DATA_ABORT : Z := 4.

(** ** The defines at the head of arm_mmu.c *)

Definition SECTION_BASE_MASK : Z := 0xfff00000.
Definition SECTION_BASE_INDEX_MASK : Z := 0x000fffff.
Definition SUP_BASE_INDEX_MASK : Z := 0x00ffffff.

Definition VA_L1_IDX_MASK : Z := Z.shiftl 0xfff 20.
Definition VA_L1_IDX_SHIFT : Z := 18.
Definition VA_L2_IDX_MASK : Z := Z.shiftl 0xff 12.
Definition VA_L2_IDX_SHIFT : Z := 10.

Definition L1_TABLE_ENTRIES : Z := Z.shiftl 1 12.
Definition L1_COARSE_MASK : Z := Z.lnot 0x3ff.
Definition L1_DOMAIN_SHIFT : Z := 5.
Definition L1_DOMAIN_MASK : Z := Z.shiftl 0xf L1_DOMAIN_SHIFT.
Definition L1_SECTION_AP_SHIFT : Z := 10.
Definition L1_SECTION_AP_MASK : Z := Z.shiftl 0x3 L1_SECTION_AP_SHIFT.

Definition L2_TABLE_SHIFT : Z := 10.
Definition L2_TABLE_ENTRIES : Z := 256.
Definition L2_TABLE_SIZE : Z := Z.shiftl 1 L2_TABLE_SHIFT.

Definition L2_TYPE_MASK : Z := 0x3.
Definition L2_TYPE_FAULT : Z := 0x0.
Definition L2_TYPE_LARGE : Z := 0x1.
Definition L2_LARGE_BASE_MASK : Z := Z.shiftl 0xffff 16.
Definition VA_LARGE_INDEX_MASK : Z := 0xffff.

Definition L1_SECTION_TYPE_SHIFT : Z := 18.
Definition L1_SECTION_TYPE_MASK : Z := Z.shiftl 1 L1_SECTION_TYPE_SHIFT.
Definition L1_SECTION_TYPE_SECTION : Z := Z.shiftl 0 L1_SECTION_TYPE_SHIFT.
Definition L1_SUP_BASE_MASK : Z := Z.shiftl 0xff 24.
Definition L1_SUP_BASE_LOW_SHIFT : Z := 20.
Definition L1_SUP_BASE_HIGH_SHIFT : Z := 5.

Definition L2_EXT_SMALL_BASE_MASK : Z := Z.shiftl 0xfffff 12.
Definition VA_EXT_SMALL_INDEX_MASK : Z := 0xfff.
Definition L2_TYPE_EXT_SMALL : Z := 0x3.
Definition L2_XP_TYPE_EXT_SMALL : Z := 0x2.

Definition L2_TYPE_SMALL : Z := 0x2.
Definition L2_SMALL_BASE_MASK : Z := Z.shiftl 0xfffff 12.
Definition VA_SMALL_INDEX_MASK : Z := 0xfff.

(** ** Names the file takes from headers that are not part of the sources *)

(** Modelled from the spec: [asm/page.h] is absent; the page size is
    4 KiB, the granule of the second-level descriptors. *)
Definition PAGE_SHIFT : Z := 12.
Definition PAGE_SIZE : Z := Z.shiftl 1 PAGE_SHIFT.
Definition PAGE_MASK : Z := Z.lnot (PAGE_SIZE - 1).

(** Modelled from the spec: the first-level type codes of the absent
    [asm/kvm_mmu.h]; the type sits in the two low-order bits (Fault,
    Coarse, Section), with the values of the ARM architecture. *)
Definition L1_TYPE_MASK : Z := 0x3.
Definition L1_TYPE_FAULT : Z := 0x0.
Definition L1_TYPE_COARSE : Z := 0x1.
Definition L1_TYPE_SECTION : Z := 0x2.

(** Modelled from the spec: [asm/domain.h] is absent; the
    domain-access-control register holds two bits per domain (No-Access,
    Client, Manager), with the values of the ARM architecture. *)
Definition DOMAIN_NOACCESS : Z := 0.
Definition DOMAIN_CLIENT : Z := 1.
Definition DOMAIN_MANAGER : Z := 3.
Definition domain_val (dom type : Z) : Z := Z.shiftl type (2 * dom).

(** Modelled from the spec: [KVM_SPECIAL_DOMAIN] is defined in the absent
    [asm/kvm_mmu.h]; it is the reserved domain of the two special regions.
    [mapping_is_guest_writable] clears the bits [0x3fffffff] leaves out,
    the field of domain 15, before it installs the special domain there. *)
Definition KVM_SPECIAL_DOMAIN : Z := 15.

(** ** Data *)

(** [struct map_info], the transient result of a guest walk. *)
Record map_info : Type := MapInfo {
  domain_number : Z;
  ap : Z;
  apx : Z;
  xn : Z;
  cache_bits : Z
}.

(** [struct page] together with the 4 KiB of memory it describes, seen as
    1024 words: four second-level tables of 256 entries each. *)
Record page : Type := Page {
  page_private : Z;
  page_words : list Z
}.

(** [kvm_shadow_pgtable]: a shadow root on the list of the virtual CPU. *)
Record kvm_shadow_pgtable : Type := ShadowPgtable {
  pgd : Z;
  pa : Z;
  guest_ttbr : Z
}.

(** A pointer into a second-level frame: the frame and the word index. *)
Definition l2_ptr : Type := (Z * Z)%type.

(** [struct kvm_vcpu] with the state of [struct kvm] and of the host kernel
    that the file reads and writes. *)
Record kvm_vcpu : Type := Vcpu {
  c1_CR : Z;
  c2_TTBR0 : Z;
  c3_DACR : Z;
  c5_IFSR : Z;
  c5_DFSR : Z;
  c6_FAR : Z;
  guest_exception : Z;
  exception_pending : Z;
  host_vectors_high : Z;
  guest_vectors : Z;                       (* frame of the vector page *)
  shadow_pgtable : Z;                      (* pgd of the active root *)
  shadow_pgtable_list : list kvm_shadow_pgtable;
  l2_unused_pt : option l2_ptr;            (* NULL is None *)
  guest_mem : gmap Z Z;                    (* guest physical words *)
  memslots : list (Z * Z);                 (* base_gfn, npages *)
  pgds : gmap Z (list Z);                  (* 16 KiB roots, by address *)
  pages : gmap Z page;                     (* second-level frames, by pfn *)
  released : list (Z * bool)               (* kvm_release_pfn_{dirty,clean} *)
}.

(** Field updates of [struct kvm_vcpu]. *)
Definition set_c5_IFSR (x : _) (v : kvm_vcpu) : kvm_vcpu :=
  Vcpu (c1_CR v) (c2_TTBR0 v) (c3_DACR v) x (c5_DFSR v) (c6_FAR v) (guest_exception v) (exception_pending v) (host_vectors_high v) (guest_vectors v) (shadow_pgtable v) (shadow_pgtable_list v) (l2_unused_pt v) (guest_mem v) (memslots v) (pgds v) (pages v) (released v).
Definition set_c5_DFSR (x : _) (v : kvm_vcpu) : kvm_vcpu :=
  Vcpu (c1_CR v) (c2_TTBR0 v) (c3_DACR v) (c5_IFSR v) x (c6_FAR v) (guest_exception v) (exception_pending v) (host_vectors_high v) (guest_vectors v) (shadow_pgtable v) (shadow_pgtable_list v) (l2_unused_pt v) (guest_mem v) (memslots v) (pgds v) (pages v) (released v).
Definition set_c6_FAR (x : _) (v : kvm_vcpu) : kvm_vcpu :=
  Vcpu (c1_CR v) (c2_TTBR0 v) (c3_DACR v) (c5_IFSR v) (c5_DFSR v) x (guest_exception v) (exception_pending v) (host_vectors_high v) (guest_vectors v) (shadow_pgtable v) (shadow_pgtable_list v) (l2_unused_pt v) (guest_mem v) (memslots v) (pgds v) (pages v) (released v).
Definition set_exception_pending (x : _) (v : kvm_vcpu) : kvm_vcpu :=
  Vcpu (c1_CR v) (c2_TTBR0 v) (c3_DACR v) (c5_IFSR v) (c5_DFSR v) (c6_FAR v) (guest_exception v) x (host_vectors_high v) (guest_vectors v) (shadow_pgtable v) (shadow_pgtable_list v) (l2_unused_pt v) (guest_mem v) (memslots v) (pgds v) (pages v) (released v).
Definition set_host_vectors_high (x : _) (v : kvm_vcpu) : kvm_vcpu :=
  Vcpu (c1_CR v) (c2_TTBR0 v) (c3_DACR v) (c5_IFSR v) (c5_DFSR v) (c6_FAR v) (guest_exception v) (exception_pending v) x (guest_vectors v) (shadow_pgtable v) (shadow_pgtable_list v) (l2_unused_pt v) (guest_mem v) (memslots v) (pgds v) (pages v) (released v).
Definition set_shadow_pgtable_list (x : _) (v : kvm_vcpu) : kvm_vcpu :=
  Vcpu (c1_CR v) (c2_TTBR0 v) (c3_DACR v) (c5_IFSR v) (c5_DFSR v) (c6_FAR v) (guest_exception v) (exception_pending v) (host_vectors_high v) (guest_vectors v) (shadow_pgtable v) x (l2_unused_pt v) (guest_mem v) (memslots v) (pgds v) (pages v) (released v).
Definition set_l2_unused_pt (x : _) (v : kvm_vcpu) : kvm_vcpu :=
  Vcpu (c1_CR v) (c2_TTBR0 v) (c3_DACR v) (c5_IFSR v) (c5_DFSR v) (c6_FAR v) (guest_exception v) (exception_pending v) (host_vectors_high v) (guest_vectors v) (shadow_pgtable v) (shadow_pgtable_list v) x (guest_mem v) (memslots v) (pgds v) (pages v) (released v).
Definition set_pgds (x : _) (v : kvm_vcpu) : kvm_vcpu :=
  Vcpu (c1_CR v) (c2_TTBR0 v) (c3_DACR v) (c5_IFSR v) (c5_DFSR v) (c6_FAR v) (guest_exception v) (exception_pending v) (host_vectors_high v) (guest_vectors v) (shadow_pgtable v) (shadow_pgtable_list v) (l2_unused_pt v) (guest_mem v) (memslots v) x (pages v) (released v).
Definition set_pages (x : _) (v : kvm_vcpu) : kvm_vcpu :=
  Vcpu (c1_CR v) (c2_TTBR0 v) (c3_DACR v) (c5_IFSR v) (c5_DFSR v) (c6_FAR v) (guest_exception v) (exception_pending v) (host_vectors_high v) (guest_vectors v) (shadow_pgtable v) (shadow_pgtable_list v) (l2_unused_pt v) (guest_mem v) (memslots v) (pgds v) x (released v).
Definition set_released (x : _) (v : kvm_vcpu) : kvm_vcpu :=
  Vcpu (c1_CR v) (c2_TTBR0 v) (c3_DACR v) (c5_IFSR v) (c5_DFSR v) (c6_FAR v) (guest_exception v) (exception_pending v) (host_vectors_high v) (guest_vectors v) (shadow_pgtable v) (shadow_pgtable_list v) (l2_unused_pt v) (guest_mem v) (memslots v) (pgds v) (pages v) x.

(** What a call does: it returns, it stops the kernel in [BUG()], or it
    goes through a pointer that is not, or is no longer, one of the tables
    the store holds. *)
Inductive outcome (A : Type) : Type :=
| Ret (a : A)
| Halt
| Wild.
Arguments Ret {A} a.
Arguments Halt {A}.
Arguments Wild {A}.

#[global] Instance outcome_ret : MRet outcome := @Ret.
#[global] Instance outcome_bind : MBind outcome := fun A B k m =>
  match m with
  | Ret a => k a
  | Halt => Halt
  | Wild => Wild
  end.

(** The functions, constants and host services the file calls and whose
    definitions are outside the sources. *)
Class KvmHost : Type := {
  KVM_AP_NONE : Z;
  KVM_AP_RDONLY : Z;
  KVM_AP_RDWRITE : Z;
  KVM_MEMORY_SLOTS : nat;
  SHARED_PAGE_BASE : Z;
  TASK_SIZE : Z;
  KVM_MEM_EXEC : Z;
  EXCEPTION_PREFETCH : Z;
  EXCEPTION_DATA : Z;
  kvm_mmu_enabled : kvm_vcpu -> bool;
  kvm_mmu_xp : kvm_vcpu -> bool;
  kvm_guest_ttbr : kvm_vcpu -> Z -> Z;
  kvm_decode_ap : kvm_vcpu -> Z -> Z -> Z;
  calc_aps : Z -> Z -> Z * Z;              (* the AP bits and the APX bit *)
  VCPU_DOMAIN_VAL : kvm_vcpu -> Z -> Z;
  kvm_is_visible_gfn : kvm_vcpu -> Z -> bool;
  pfn_valid : Z -> bool;
  get_free_page : kvm_vcpu -> option Z;    (* __get_free_pages(.., 0): a pfn *)
  get_free_pages2 : kvm_vcpu -> option Z;  (* __get_free_pages(.., 2): an address *)
  kmalloc_ok : kvm_vcpu -> bool;
  virt_to_phys : Z -> Z
}.

(** ** The guest walker *)

Section Walker.
Context `{!KvmHost}.

(** [invisible_gfn]: at most [KVM_MEMORY_SLOTS] rounds, then [BUG_ON]. *)
Fixpoint invisible_gfn_loop (vcpu : kvm_vcpu) (slots : list nat) (gfn : Z) : Z :=
  match slots with
  | [] => gfn
  | i :: rest =>
      if negb (kvm_is_visible_gfn vcpu gfn) then gfn
      else invisible_gfn_loop vcpu rest (u64 ((memslots vcpu !!! i).1 - 1))
  end.

Definition invisible_gfn (vcpu : kvm_vcpu) : outcome Z :=
  let gfn := invisible_gfn_loop vcpu (seq 0 KVM_MEMORY_SLOTS) 0xffffff in
  if kvm_is_visible_gfn vcpu gfn then Halt else Ret gfn.

(** Modelled from the spec: [kvm_read_guest], which
    [get_guest_pgtable_entry] calls, is the guest-memory-read interface; it
    gives the bytes or a negative error.  An address the guest memory does
    not hold gives [-EFAULT] and leaves [entry] alone.  The result is the
    error code and the word behind [entry]. *)
Definition get_guest_pgtable_entry (vcpu : kvm_vcpu) (entry table_entry : Z)
  : Z * Z :=
  match guest_mem vcpu !! table_entry with
  | Some w => (0, w)
  | None => (- EFAULT, entry)
  end.

(** The walkers return the [int] result with the two out-parameters. *)
Definition walk : Type := (Z * Z * map_info)%type.

Definition trans_coarse_entry_xp (vcpu : kvm_vcpu) (gva desc gfn domain_type
    uaccess : Z) (mi : map_info) : outcome walk :=
  match Z.land desc L2_TYPE_MASK with
  | 0 =>
      g ← invisible_gfn vcpu;
      Ret (FSR_TRANS_PAGE, g, mi)
  | 1 => Halt
  | 2 | 3 =>
      let mi := MapInfo (domain_number mi)
                  (Z.land (Z.shiftr desc 4) 0x3)
                  (Z.land (Z.shiftr desc 9) 0x1)
                  (Z.land desc 0x1)
                  (Z.lor (Z.land desc 0xc) (Z.land (Z.shiftr desc 2) 0x70)) in
      let ret :=
        if (domain_type =? DOMAIN_CLIENT)
           && (kvm_decode_ap vcpu (ap mi) uaccess =? KVM_AP_NONE)
        then FSR_PERM_PAGE else 0 in
      let page_base := Z.land desc L2_EXT_SMALL_BASE_MASK in
      let page_index := Z.land gva VA_EXT_SMALL_INDEX_MASK in
      Ret (ret, Z.shiftr (Z.lor page_base page_index) PAGE_SHIFT, mi)
  | _ => Ret (- EINVAL, gfn, mi)
  end.

Definition trans_coarse_entry (vcpu : kvm_vcpu) (gva desc gfn domain_type
    uaccess : Z) (mi : map_info) : outcome walk :=
  match Z.land desc L2_TYPE_MASK with
  | 0 =>
      g ← invisible_gfn vcpu;
      Ret (FSR_TRANS_PAGE, g, mi)
  | 1 => Halt
  | 2 =>
      let ap8 := Z.land (Z.shiftr desc 4) 0xff in
      if kvm_mmu_xp vcpu then Ret (- EINVAL, gfn, mi)
      else
        let mi := MapInfo (domain_number mi) ap8 (apx mi) (xn mi)
                    (cache_bits mi) in
        if negb (Z.land ap8 0x3 =? Z.land (Z.shiftr ap8 2) 0x3)
           || negb (Z.land ap8 0x3 =? Z.land (Z.shiftr ap8 4) 0x3)
           || negb (Z.land ap8 0x3 =? Z.land (Z.shiftr ap8 6) 0x3)
        then Ret (- EINVAL, gfn, mi)
        else
          let mi := MapInfo (domain_number mi) ap8 (apx mi) (xn mi)
                      (Z.land desc 0xc) in
          let subpage := Z.land (Z.shiftr gva 10) 0x3 in
          let ap2 := Z.land (Z.shiftr desc (4 + subpage * 2)) 0x3 in
          let ret :=
            if (domain_type =? DOMAIN_CLIENT)
               && (kvm_decode_ap vcpu ap2 uaccess =? KVM_AP_NONE)
            then FSR_PERM_PAGE else 0 in
          let page_base := Z.land desc L2_SMALL_BASE_MASK in
          let page_index := Z.land gva VA_SMALL_INDEX_MASK in
          Ret (ret, Z.shiftr (Z.lor page_base page_index) PAGE_SHIFT, mi)
  | 3 =>
      let ap2 := Z.land (Z.shiftr desc 4) 0x3 in
      let mi := MapInfo (domain_number mi)
                  (Z.lor (Z.lor (Z.lor ap2 (Z.shiftl ap2 2)) (Z.shiftl ap2 4))
                     (Z.shiftl ap2 6))
                  (apx mi) (xn mi)
                  (Z.lor (Z.land desc 0xc) (Z.land (Z.shiftr desc 2) 0x70)) in
      let ret :=
        if (domain_type =? DOMAIN_CLIENT)
           && (kvm_decode_ap vcpu ap2 uaccess =? KVM_AP_NONE)
        then FSR_PERM_PAGE else 0 in
      let page_base := Z.land desc L2_EXT_SMALL_BASE_MASK in
      let page_index := Z.land gva VA_EXT_SMALL_INDEX_MASK in
      Ret (ret, Z.shiftr (Z.lor page_base page_index) PAGE_SHIFT, mi)
  | _ => Halt
  end.

Definition is_supersection (l1_entry : Z) : bool :=
  negb (Z.land l1_entry L1_SECTION_TYPE_MASK =? L1_SECTION_TYPE_SECTION).

(** [l1_domain_access]: the local [type] is a [u8], so the masked register
    is cut to its low byte before it is shifted down. *)
Definition l1_domain_access (vcpu : kvm_vcpu) (l1_entry : Z) (mi : map_info)
  : Z * map_info :=
  let domain :=
    if is_supersection l1_entry then 0
    else Z.shiftr (Z.land l1_entry L1_DOMAIN_MASK) L1_DOMAIN_SHIFT in
  let mi := MapInfo domain (ap mi) (apx mi) (xn mi) (cache_bits mi) in
  let type := u8 (Z.land (c3_DACR vcpu) (domain_val domain DOMAIN_MANAGER)) in
  (Z.shiftr type (2 * domain), mi).

(** [gva_to_gfn].  [gfn] and [mi] are the values behind the two
    out-pointers on entry (a caller passing [NULL] for [map_info] gets a
    scratch one); the result carries them as the call leaves them. *)
Definition gva_to_gfn (vcpu : kvm_vcpu) (gva gfn uaccess : Z) (mi : map_info)
  : outcome walk :=
  if negb (kvm_mmu_enabled vcpu) then
    Ret (0, Z.shiftr gva PAGE_SHIFT, MapInfo 0 0xff 0 0 0x0c)
  else
    let l1_base := kvm_guest_ttbr vcpu gva in
    let l1_index := Z.shiftr (Z.land gva VA_L1_IDX_MASK) VA_L1_IDX_SHIFT in
    let '(err, l1_entry) :=
      get_guest_pgtable_entry vcpu 0 (Z.lor l1_base l1_index) in
    if err <? 0 then Ret (err, gfn, mi)
    else
      match Z.land l1_entry L1_TYPE_MASK with
      | 0 =>
          g ← invisible_gfn vcpu;
          Ret (FSR_TRANS_SEC, g, mi)
      | 1 =>
          let '(dt, mi) := l1_domain_access vcpu l1_entry mi in
          let domain_type := u8 dt in
          let ret := if domain_type =? DOMAIN_NOACCESS then FSR_DOMAIN_PAG else 0 in
          let l2_base := Z.land l1_entry L1_COARSE_MASK in
          let l2_index := Z.shiftr (Z.land gva VA_L2_IDX_MASK) VA_L2_IDX_SHIFT in
          let '(err, l2_entry) :=
            get_guest_pgtable_entry vcpu 0 (Z.lor l2_base l2_index) in
          if err <? 0 then Ret (err, gfn, mi)
          else
            '(err, gfn, mi) ←
              (if kvm_mmu_xp vcpu
               then trans_coarse_entry_xp vcpu gva l2_entry gfn domain_type uaccess mi
               else trans_coarse_entry vcpu gva l2_entry gfn domain_type uaccess mi);
            if err <? 0 then Ret (err, gfn, mi)
            else if (ret =? 0) && (0 <? err) then Ret (err, gfn, mi)
            else Ret (ret, gfn, mi)
      | 2 =>
          let ap2 := Z.shiftr (Z.land l1_entry L1_SECTION_AP_MASK) L1_SECTION_AP_SHIFT in
          let ap8 := Z.lor (Z.lor (Z.lor ap2 (Z.shiftl ap2 2)) (Z.shiftl ap2 4))
                       (Z.shiftl ap2 6) in
          let mi :=
            if kvm_mmu_xp vcpu
            then MapInfo (domain_number mi) ap8
                   (Z.land (Z.shiftr l1_entry 14) 1)
                   (Z.land (Z.shiftr l1_entry 4) 1) (cache_bits mi)
            else MapInfo (domain_number mi) ap8 (apx mi) (xn mi) (cache_bits mi) in
          let cb := Z.land l1_entry 0xc in
          let cb := Z.lor cb (Z.land (Z.shiftr l1_entry 6) 0x70) in
          let mi := MapInfo (domain_number mi) (ap mi) (apx mi) (xn mi) cb in
          let '(dt, mi) := l1_domain_access vcpu l1_entry mi in
          let domain_type := u8 dt in
          let ret :=
            if domain_type =? DOMAIN_NOACCESS then FSR_DOMAIN_SEC
            else if (domain_type =? DOMAIN_CLIENT)
                    && (kvm_decode_ap vcpu ap2 uaccess =? KVM_AP_NONE)
                 then FSR_PERM_SEC
                 else 0 in
          if kvm_mmu_xp vcpu && is_supersection l1_entry then
            if negb (Z.land (Z.shiftr l1_entry L1_SUP_BASE_LOW_SHIFT) 0xf =? 0)
               || negb (Z.land (Z.shiftr l1_entry L1_SUP_BASE_HIGH_SHIFT) 0xf =? 0)
            then Ret (- EINVAL, gfn, mi)
            else
              let gpa := Z.lor (Z.land l1_entry L1_SUP_BASE_MASK)
                           (Z.land gva SUP_BASE_INDEX_MASK) in
              Ret (ret, Z.shiftr gpa PAGE_SHIFT, mi)
          else
            let gpa := Z.lor (Z.land l1_entry SECTION_BASE_MASK)
                         (Z.land gva SECTION_BASE_INDEX_MASK) in
            Ret (ret, Z.shiftr gpa PAGE_SHIFT, mi)
      | _ => Halt
      end.

End Walker.

(** ** The shadow table manager *)

Section Shadow.
Context `{!KvmHost}.

(** Reads and writes through pointers into the store. *)
Definition read_l1 (vcpu : kvm_vcpu) (pgd idx : Z) : outcome Z :=
  match pgds vcpu !! pgd with
  | Some t =>
      if idx <? 0 then Wild
      else match t !! Z.to_nat idx with Some e => Ret e | None => Wild end
  | None => Wild
  end.

Definition write_l1 (vcpu : kvm_vcpu) (pgd idx e : Z) : outcome kvm_vcpu :=
  match pgds vcpu !! pgd with
  | Some t =>
      if (idx <? 0) || (Z.of_nat (length t) <=? idx) then Wild
      else Ret (set_pgds (<[pgd := <[Z.to_nat idx := e]> t]> (pgds vcpu)) vcpu)
  | None => Wild
  end.

Definition read_l2 (vcpu : kvm_vcpu) (p : l2_ptr) : outcome Z :=
  match pages vcpu !! p.1 with
  | Some pg =>
      if p.2 <? 0 then Wild
      else match page_words pg !! Z.to_nat p.2 with
           | Some e => Ret e
           | None => Wild
           end
  | None => Wild
  end.

Definition write_l2 (vcpu : kvm_vcpu) (p : l2_ptr) (e : Z) : outcome kvm_vcpu :=
  match pages vcpu !! p.1 with
  | Some pg =>
      if (p.2 <? 0) || (Z.of_nat (length (page_words pg)) <=? p.2) then Wild
      else Ret (set_pages
                  (<[p.1 := Page (page_private pg)
                              (<[Z.to_nat p.2 := e]> (page_words pg))]>
                     (pages vcpu)) vcpu)
  | None => Wild
  end.

(** [kvm_alloc_l1_shadow]: an error pointer or the new root, all Fault.
    The ASID tag of [CONFIG_CPU_HAS_ASID] is left out. *)
Definition kvm_alloc_l1_shadow (vcpu : kvm_vcpu) (guest_ttbr : Z)
  : (Z + kvm_shadow_pgtable) * kvm_vcpu :=
  if negb (kmalloc_ok vcpu) then (inl (- ENOMEM), vcpu)
  else
    match get_free_pages2 vcpu with
    | None => (inl (- ENOMEM), vcpu)
    | Some a =>
        let shadow := ShadowPgtable a (virt_to_phys a) guest_ttbr in
        let vcpu :=
          set_pgds (<[a := replicate (Z.to_nat L1_TABLE_ENTRIES) 0]> (pgds vcpu))
            vcpu in
        (inr shadow,
         set_shadow_pgtable_list (shadow_pgtable_list vcpu ++ [shadow]) vcpu)
    end.

Definition mapping_is_guest_writable (vcpu : kvm_vcpu) (domain pte : Z)
  : outcome bool :=
  let dacr := Z.lor (Z.land (c3_DACR vcpu) 0x3fffffff)
                (domain_val KVM_SPECIAL_DOMAIN DOMAIN_CLIENT) in
  if 15 <? domain then Halt
  else
    match Z.shiftr dacr (domain * 2) with
    | 3 => Ret true
    | 1 =>
        let ap2 := Z.land (Z.shiftr pte 4) 0x3 in
        Ret (kvm_decode_ap vcpu ap2 0 =? KVM_AP_RDWRITE)
    | 0 => Ret false
    | _ => Ret false
    end.

(** [release_l2_shadow_entry]: the guest page goes back through
    [kvm_release_pfn_dirty] or [kvm_release_pfn_clean], logged in
    [released] with the dirty flag. *)
Definition release_l2_shadow_entry (vcpu : kvm_vcpu) (domain pte gva : Z)
  : outcome kvm_vcpu :=
  match Z.land pte L2_TYPE_MASK with
  | 0 => Ret vcpu
  | 2 | 3 =>
      let pfn := Z.shiftr (Z.land pte L2_SMALL_BASE_MASK) PAGE_SHIFT in
      w ← mapping_is_guest_writable vcpu domain pte;
      Ret (set_released (released vcpu ++ [(pfn, w)]) vcpu)
  | _ => Halt
  end.

Fixpoint free_l2_shadow_loop (vcpu : kvm_vcpu) (l1_pte gva_base : Z)
    (pte : l2_ptr) (ix : list Z) : outcome kvm_vcpu :=
  match ix with
  | [] => Ret vcpu
  | i :: rest =>
      let domain := Z.shiftr (Z.land l1_pte L1_DOMAIN_MASK) L1_DOMAIN_SHIFT in
      e ← read_l2 vcpu pte;
      vcpu ← release_l2_shadow_entry vcpu domain e
               (Z.lor gva_base (Z.shiftl i 12));
      free_l2_shadow_loop vcpu l1_pte gva_base (pte.1, pte.2 + 1) rest
  end.

(** The indices [0 .. n-1] of a counted loop. *)
Definition upto (n : Z) : list Z := map Z.of_nat (seq 0 (Z.to_nat n)).

Definition free_l2_shadow (vcpu : kvm_vcpu) (l1_pte gva_base : Z)
  : outcome kvm_vcpu :=
  let pfn := Z.shiftr l1_pte PAGE_SHIFT in
  let pte : l2_ptr := (pfn, Z.shiftr (Z.land l1_pte 0xc00) 2) in
  vcpu ← free_l2_shadow_loop vcpu l1_pte gva_base pte (upto L2_TABLE_ENTRIES);
  match pages vcpu !! pfn with
  | None => Wild
  | Some pg =>
      if page_private pg =? 0 then Halt
      else if page_private pg - 1 =? 0
      then Ret (set_pages (delete pfn (pages vcpu)) vcpu)
      else Ret (set_pages
                  (<[pfn := Page (page_private pg - 1) (page_words pg)]>
                     (pages vcpu)) vcpu)
  end.

(** [__free_l1_shadow_children].  The [for] statement reloads [l1_pte]
    from [pgd[i]] after each increment, also after [continue]; the load
    that follows the last round is not used. *)
Fixpoint free_l1_shadow_children_loop (vcpu : kvm_vcpu) (pgd : Z)
    (ix : list Z) : outcome kvm_vcpu :=
  match ix with
  | [] => Ret vcpu
  | i :: rest =>
      l1_pte ← read_l1 vcpu pgd i;
      if Z.land l1_pte L1_TYPE_MASK =? L1_TYPE_FAULT
      then free_l1_shadow_children_loop vcpu pgd rest
      else if negb (Z.land l1_pte L1_TYPE_MASK =? L1_TYPE_COARSE) then Halt
      else
        vcpu ← free_l2_shadow vcpu l1_pte (u32 (Z.shiftl i 20));
        vcpu ← write_l1 vcpu pgd i 0;
        free_l1_shadow_children_loop vcpu pgd rest
  end.

Definition __free_l1_shadow_children (vcpu : kvm_vcpu) (pgd : Z)
  : outcome kvm_vcpu :=
  free_l1_shadow_children_loop vcpu pgd (upto L1_TABLE_ENTRIES).

Definition free_l1_shadow_children (vcpu : kvm_vcpu) (pgd : Z)
  : outcome kvm_vcpu :=
  if pgd =? 0 then Ret vcpu
  else
    vcpu ← __free_l1_shadow_children vcpu pgd;
    Ret (set_l2_unused_pt None vcpu).

(** [kvm_free_l1_shadow]: the children, then the root itself, then the
    entry on the list of the virtual CPU. *)
Definition kvm_free_l1_shadow (vcpu : kvm_vcpu) (shadow : kvm_shadow_pgtable)
  : outcome kvm_vcpu :=
  vcpu ← free_l1_shadow_children vcpu (pgd shadow);
  let vcpu := set_pgds (delete (pgd shadow) (pgds vcpu)) vcpu in
  Ret (set_shadow_pgtable_list
         (filter (fun s => pgd s ≠ pgd shadow) (shadow_pgtable_list vcpu)) vcpu).

(** [alloc_l2_shadow]: an error pointer or the base of a 1 KiB table. *)
Definition alloc_l2_shadow (vcpu : kvm_vcpu)
  : outcome ((Z + l2_ptr) * kvm_vcpu) :=
  let fresh :=
    match l2_unused_pt vcpu with
    | Some p => Some (p, vcpu)
    | None =>
        match get_free_page vcpu with
        | None => None
        | Some pfn =>
            Some ((pfn, 0),
                  set_pages
                    (<[pfn := Page 0 (replicate (Z.to_nat (PAGE_SIZE / 4)) 0)]>
                       (pages vcpu)) vcpu)
        end
    end in
  match fresh with
  | None => Ret (inl (- ENOMEM), vcpu)
  | Some (l2_base, vcpu) =>
      let next : l2_ptr := (l2_base.1, l2_base.2 + L2_TABLE_SIZE / 4) in
      let vcpu :=
        set_l2_unused_pt
          (if (next.2 * 4) mod PAGE_SIZE =? 0 then None else Some next) vcpu in
      match pages vcpu !! l2_base.1 with
      | None => Wild
      | Some pg =>
          Ret (inr l2_base,
               set_pages
                 (<[l2_base.1 := Page (page_private pg + 1) (page_words pg)]>
                    (pages vcpu)) vcpu)
      end
  end.

Definition dom_to_ap (vcpu : kvm_vcpu) (domain ap apx : Z) : Z * Z :=
  if VCPU_DOMAIN_VAL vcpu domain =? DOMAIN_NOACCESS then (0, 0)
  else if VCPU_DOMAIN_VAL vcpu domain =? DOMAIN_MANAGER then (0xff, 0)
  else (ap, apx).

(** [get_l2_base]: the result and the pointer it stores on success. *)
Definition get_l2_base (l1_entry : Z) : Z * option l2_ptr :=
  let l2_pfn := Z.shiftr l1_entry PAGE_SHIFT in
  if negb (pfn_valid l2_pfn) then (- EFAULT, None)
  else (0, Some (l2_pfn, Z.shiftr (Z.land l1_entry 0xc00) 2)).

(** [kvm_host_vector_base] of asm/kvm_arm.h. *)
Definition kvm_host_vector_base (vcpu : kvm_vcpu) : Z :=
  if host_vectors_high vcpu =? 0 then EXCEPTION_VECTOR_LOW
  else EXCEPTION_VECTOR_HIGH.

(** Modelled from the spec: the macro [VCPU_HOST_EXCP_BASE] is defined in
    the absent [asm/kvm_mmu.h]; it is the current exception-vector base of
    the host, which [kvm_host_vector_base] computes. *)
Definition VCPU_HOST_EXCP_BASE (vcpu : kvm_vcpu) : Z := kvm_host_vector_base vcpu.

(** The domain and access permissions [__map_gva_to_pfn] settles on before
    it touches the tables: the part up to the label [skip_domain_check]. *)
Definition special_domain_check (vcpu : kvm_vcpu) (gva domain ap apx : Z)
  : Z * Z * Z :=
  let l1_index := Z.shiftr gva 20 in
  if domain =? KVM_SPECIAL_DOMAIN then (domain, ap, apx)
  else if l1_index =? Z.shiftr SHARED_PAGE_BASE 20 then
    let '(ap, apx) := dom_to_ap vcpu domain ap apx in
    (KVM_SPECIAL_DOMAIN, ap, apx)
  else if l1_index =? Z.shiftr (VCPU_HOST_EXCP_BASE vcpu) 20 then
    let '(ap, apx) := dom_to_ap vcpu domain ap apx in
    (KVM_SPECIAL_DOMAIN, ap, apx)
  else (domain, ap, apx).

(** The second-level descriptor [__map_gva_to_pfn] builds (VMSAv6). *)
Definition l2_descriptor (pfn xn ap apx nG : Z) : Z :=
  let e := Z.lor (u32 (Z.shiftl pfn PAGE_SHIFT)) L2_XP_TYPE_EXT_SMALL in
  let e := Z.lor e (Z.land xn 0x1) in
  let e := Z.lor e 0xc in
  let e := Z.land e (Z.lnot 0x00000ff0) in
  let e := Z.lor e (Z.shiftl (Z.land ap 0x3) 4) in
  let e := Z.lor e (Z.shiftl (Z.land apx 0x1) 9) in
  Z.lor e (Z.shiftl nG 11).

Definition __map_gva_to_pfn (vcpu : kvm_vcpu) (pgd gva pfn domain ap apx xn : Z)
  : outcome (Z * kvm_vcpu) :=
  let l1_index := Z.shiftr gva 20 in
  let nG :=
    if (Z.land gva PAGE_MASK =? SHARED_PAGE_BASE) || (TASK_SIZE <? gva)
    then 0 else 1 in
  let '(domain, ap, apx) := special_domain_check vcpu gva domain ap apx in
  l1_pte ← read_l1 vcpu pgd l1_index;
  '(ret, l2_base, vcpu) ←
    match Z.land l1_pte L1_TYPE_MASK with
    | 0 =>
        '(r, vcpu) ← alloc_l2_shadow vcpu;
        match r with
        | inl err => Ret (err, None, vcpu)
        | inr l2_base =>
            let e := u32 (Z.shiftl l2_base.1 PAGE_SHIFT) in
            let e := Z.lor e (Z.land (l2_base.2 * 4) (PAGE_SIZE - 1)) in
            let e := Z.lor (Z.land e L1_COARSE_MASK) L1_TYPE_COARSE in
            let e := Z.lor e (Z.shiftl (Z.land domain 0xf) L1_DOMAIN_SHIFT) in
            vcpu ← write_l1 vcpu pgd l1_index e;
            Ret (0, Some l2_base, vcpu)
        end
    | 1 =>
        let e := Z.land l1_pte (Z.lnot L1_DOMAIN_MASK) in
        let e := Z.lor e (Z.shiftl (Z.land domain 0xf) L1_DOMAIN_SHIFT) in
        vcpu ← write_l1 vcpu pgd l1_index e;
        let '(ret, l2_base) := get_l2_base e in
        Ret (ret, l2_base, vcpu)
    | _ => Ret (- EFAULT, None, vcpu)
    end;
  match l2_base with
  | None => Ret (ret, vcpu)
  | Some l2_base =>
      let l2_pte : l2_ptr :=
        (l2_base.1, l2_base.2 + Z.land (Z.shiftr gva 12) 0xff) in
      vcpu ← write_l2 vcpu l2_pte (l2_descriptor pfn xn ap apx nG);
      Ret (0, vcpu)
  end.

Definition map_gva_to_pfn (vcpu : kvm_vcpu)
    (pgd gva pfn domain priv_ap user_ap exec : Z) : outcome (Z * kvm_vcpu) :=
  if (priv_ap =? KVM_AP_NONE) && negb (user_ap =? KVM_AP_NONE)
  then Ret (- EINVAL, vcpu)
  else if (if kvm_mmu_xp vcpu
           then (priv_ap =? KVM_AP_RDONLY) && (user_ap =? KVM_AP_RDWRITE)
           else priv_ap =? KVM_AP_RDONLY)
  then Ret (- EINVAL, vcpu)
  else
    let '(calc_ap, apx) := calc_aps priv_ap user_ap in
    let ap := fold_left (fun ap i => u8 (Z.lor ap (Z.shiftl calc_ap (i * 2))))
                (upto 4) 0 in
    __map_gva_to_pfn vcpu pgd gva pfn domain ap apx exec.

Definition unmap_gva_section (vcpu : kvm_vcpu) (pgd gva : Z)
  : outcome (Z * kvm_vcpu) :=
  l1_pte ← read_l1 vcpu pgd (Z.shiftr gva 20);
  match Z.land l1_pte L1_TYPE_MASK with
  | 0 => Ret (0, vcpu)
  | 1 =>
      vcpu ← free_l2_shadow vcpu l1_pte gva;
      vcpu ← write_l1 vcpu pgd (Z.shiftr gva 20) 0;
      Ret (0, vcpu)
  | _ => Ret (- EFAULT, vcpu)
  end.

Definition unmap_gva (vcpu : kvm_vcpu) (pgd gva : Z) : outcome (Z * kvm_vcpu) :=
  l1_pte ← read_l1 vcpu pgd (Z.shiftr gva 20);
  match Z.land l1_pte L1_TYPE_MASK with
  | 0 => Ret (0, vcpu)
  | 1 =>
      match get_l2_base l1_pte with
      | (ret, None) => Ret (ret, vcpu)
      | (_, Some l2_base) =>
          let l2_pte : l2_ptr :=
            (l2_base.1, l2_base.2 + Z.land (Z.shiftr gva 12) 0xff) in
          vcpu ← write_l2 vcpu l2_pte 0;
          Ret (0, vcpu)
      end
  | _ => Ret (- EFAULT, vcpu)
  end.

Definition kvm_switch_host_vectors (vcpu : kvm_vcpu) (high : Z)
  : outcome (Z * kvm_vcpu) :=
  if high =? host_vectors_high vcpu then Ret (0, vcpu)
  else
    '(ret, exception_base, vcpu) ←
      (if negb (high =? 0) then
         '(ret, vcpu) ← unmap_gva_section vcpu (shadow_pgtable vcpu)
                          EXCEPTION_VECTOR_LOW;
         if negb (ret =? 0) then Ret (ret, 0, vcpu)
         else Ret (0, EXCEPTION_VECTOR_HIGH, set_host_vectors_high 1 vcpu)
       else
         '(ret, vcpu) ← unmap_gva vcpu (shadow_pgtable vcpu)
                          EXCEPTION_VECTOR_HIGH;
         if negb (ret =? 0) then Ret (ret, 0, vcpu)
         else Ret (0, EXCEPTION_VECTOR_LOW, set_host_vectors_high 0 vcpu));
    if negb (ret =? 0) then Ret (ret, vcpu)
    else
      map_gva_to_pfn vcpu (shadow_pgtable vcpu) exception_base
        (guest_vectors vcpu) KVM_SPECIAL_DOMAIN KVM_AP_RDWRITE KVM_AP_NONE
        KVM_MEM_EXEC.

(** ** Fault injection *)

Definition kvm_generate_mmu_fault (vcpu : kvm_vcpu) (fault_addr source domain : Z)
  : kvm_vcpu :=
  if guest_exception vcpu =? ARM_EXCEPTION_PREF_ABORT then
    let vcpu := set_c5_IFSR 0 vcpu in
    let vcpu := set_c5_IFSR (Z.lor (c5_IFSR vcpu) (Z.land source FSR_TYPE_MASK)) vcpu in
    let vcpu := set_c5_IFSR
                  (Z.lor (c5_IFSR vcpu) (Z.shiftl (Z.land domain 0xf) 4)) vcpu in
    set_exception_pending (Z.lor (exception_pending vcpu) EXCEPTION_PREFETCH) vcpu
  else
    let vcpu := set_c6_FAR fault_addr vcpu in
    let vcpu := set_c5_DFSR 0 vcpu in
    let vcpu := set_c5_DFSR (Z.lor (c5_DFSR vcpu) (Z.land source FSR_TYPE_MASK)) vcpu in
    let vcpu := set_c5_DFSR
                  (Z.lor (c5_DFSR vcpu) (Z.shiftl (Z.land domain 0xf) 4)) vcpu in
    let vcpu := set_c5_DFSR source vcpu in
    set_exception_pending (Z.lor (exception_pending vcpu) EXCEPTION_DATA) vcpu.

End Shadow.

(** ** Counting second-level tables in use

    What a first-level word says about the frame it points into. *)
Definition l1_is_coarse (e : Z) : bool := Z.land e L1_TYPE_MASK =? L1_TYPE_COARSE.
Definition l1_frame (e : Z) : Z := Z.shiftr e PAGE_SHIFT.
Definition l1_slot (e : Z) : Z := Z.shiftr (Z.land e 0xc00) 10.

Definition coarse_to (p e : Z) : bool := l1_is_coarse e && (l1_frame e =? p).
Definition coarse_to_slot (p s e : Z) : bool := coarse_to p e && (l1_slot e =? s).

Definition b2z (b : bool) : Z := if b then 1 else 0.

Fixpoint count_l1 (f : Z -> bool) (t : list Z) : Z :=
  match t with
  | [] => 0
  | e :: t => b2z (f e) + count_l1 f t
  end.

(** The number of first-level entries, over all roots, that satisfy [f]. *)
Definition refs_of (f : Z -> bool) (roots : gmap Z (list Z)) : Z :=
  map_fold (fun _ t acc => count_l1 f t + acc) 0 roots.

(** Slot [s] (0 to 3) of frame [p] is in use when a Coarse first-level
    entry of some root points at it. *)
Definition slot_in_use (vcpu : kvm_vcpu) (p s : Z) : bool :=
  0 <? refs_of (coarse_to_slot p s) (pgds vcpu).

Definition live_subtables (vcpu : kvm_vcpu) (p : Z) : Z :=
  count_l1 (slot_in_use vcpu p) [0; 1; 2; 3].

(** Slot [s] of a frame is populated when one of its 256 words is not a
    Fault descriptor. *)
Definition slot_populated (pg : page) (s : Z) : bool :=
  existsb (fun e => negb (Z.land e L2_TYPE_MASK =? L2_TYPE_FAULT))
    (take 256 (drop (Z.to_nat (s * 256)) (page_words pg))).

Definition populated_subtables (pg : page) : Z :=
  count_l1 (slot_populated pg) [0; 1; 2; 3].

(** The calls of the shadow table manager, and runs of them. *)
Inductive shadow_op : Type :=
| OpAllocRoot (guest_ttbr : Z)
| OpMap (pgd gva pfn domain priv_ap user_ap exec : Z)
| OpUnmap (pgd gva : Z)
| OpUnmapSection (pgd gva : Z)
| OpFreeRoot (shadow : kvm_shadow_pgtable).

Definition step `{!KvmHost} (vcpu : kvm_vcpu) (op : shadow_op) : outcome kvm_vcpu :=
  match op with
  | OpAllocRoot ttbr => Ret (kvm_alloc_l1_shadow vcpu ttbr).2
  | OpMap pgd gva pfn domain priv_ap user_ap exec =>
      r ← map_gva_to_pfn vcpu pgd gva pfn domain priv_ap user_ap exec;
      Ret r.2
  | OpUnmap pgd gva => r ← unmap_gva vcpu pgd gva; Ret r.2
  | OpUnmapSection pgd gva => r ← unmap_gva_section vcpu pgd gva; Ret r.2
  | OpFreeRoot shadow => kvm_free_l1_shadow vcpu shadow
  end.

Fixpoint run `{!KvmHost} (vcpu : kvm_vcpu) (ops : list shadow_op)
  : outcome kvm_vcpu :=
  match ops with
  | [] => Ret vcpu
  | op :: ops => vcpu ← step vcpu op; run vcpu ops
  end.

(** A virtual CPU before any shadow table exists. *)
Definition no_shadow (vcpu : kvm_vcpu) : Prop :=
  pgds vcpu = ∅ /\ pages vcpu = ∅ /\ l2_unused_pt vcpu = None.

(** What the code relies on from the page allocator of the host: a frame
    or a root it hands out is not one the manager still holds, frames are
    low-memory frames, and no root sits at address 0. *)
Definition host_allocator_ok `{!KvmHost} : Prop :=
  (forall v p, get_free_page v = Some p ->
               pages v !! p = None /\ 0 <= p < 2 ^ 20)
  /\ (forall v a, get_free_pages2 v = Some a -> pgds v !! a = None /\ a <> 0).

(** The invariant of the manager, on the use counts of the frames, the
    roots and the pointer to the next unused table. *)
Record shadow_inv_on (counts : gmap Z Z) (roots : gmap Z (list Z))
    (unused : option l2_ptr) : Prop := ShadowInv {
  inv_count : forall p c, counts !! p = Some c -> c = refs_of (coarse_to p) roots;
  inv_live : forall p, 0 < refs_of (coarse_to p) roots -> is_Some (counts !! p);
  inv_slot : forall p s, refs_of (coarse_to_slot p s) roots <= 1;
  inv_unused : forall p w, unused = Some (p, w) ->
    (w = 256 \/ w = 512 \/ w = 768) /\ 0 <= p < 2 ^ 20
    /\ (is_Some (counts !! p) ->
        forall s, w <= 256 * s -> refs_of (coarse_to_slot p s) roots = 0);
  inv_length : forall a t, roots !! a = Some t -> length t = 4096%nat;
  inv_null : roots !! 0 = None
}.

Definition shadow_inv (vcpu : kvm_vcpu) : Prop :=
  shadow_inv_on (page_private <$> pages vcpu) (pgds vcpu) (l2_unused_pt vcpu).

(** ** A host to run the code on

    One setting of the names of [KvmHost], used to evaluate the functions
    on concrete inputs. *)

Definition max_key {A : Type} (base : Z) (m : gmap Z A) : Z :=
  map_fold (fun k _ acc => Z.max k acc) base m.

(** Modelled from the spec: [kvm_decode_ap] is defined in the absent
    [asm/kvm_mmu.h]; it interprets the access-permission bits of a page for
    the privilege level asked for.  This is the ARMv6 decoding with APX
    clear: 00 no access, 01 privileged read-write, 10 user read-only on
    top, 11 read-write for both; the result is 0 (none), 1 (read-only) or
    2 (read-write). *)
Definition arm_decode_ap (ap uaccess : Z) : Z :=
  match Z.land ap 0x3 with
  | 0 => 0
  | 1 => if uaccess =? 0 then 2 else 0
  | 2 => if uaccess =? 0 then 2 else 1
  | _ => 2
  end.

(** Modelled from the spec: [calc_aps] is defined in the absent
    [asm/kvm_mmu.h]; it derives the combined access-permission encoding
    and the APX bit from the privileged and the user access. *)
Definition arm_calc_aps (priv_ap user_ap : Z) : Z * Z :=
  let apx := if priv_ap =? 1 then 1 else 0 in
  if priv_ap =? 0 then (0, apx)
  else if user_ap =? 0 then (1, apx)
  else if user_ap =? 1 then (2, apx)
  else (3, apx).

(** Modelled from the spec: the constants, macros and host services of
    the absent headers.  [VCPU_DOMAIN_VAL] is the two-bit field of a domain
    in the domain-access-control register of the guest; the MMU and the
    extended-paging switches are the M and XP bits of the control register;
    a guest frame is visible when a memory slot holds it; the allocator
    hands out the frame, or the root, after the highest one in use. *)
#[local] Instance arm_host : KvmHost := {|
  KVM_AP_NONE := 0;
  KVM_AP_RDONLY := 1;
  KVM_AP_RDWRITE := 2;
  KVM_MEMORY_SLOTS := 32;
  SHARED_PAGE_BASE := 0xffff1000;
  TASK_SIZE := 0xbf000000;
  KVM_MEM_EXEC := 0;
  EXCEPTION_PREFETCH := 0x08;
  EXCEPTION_DATA := 0x10;
  kvm_mmu_enabled := fun v => Z.testbit (c1_CR v) 0;
  kvm_mmu_xp := fun v => Z.testbit (c1_CR v) 23;
  kvm_guest_ttbr := fun v _ => Z.land (c2_TTBR0 v) (Z.lnot 0x3fff);
  kvm_decode_ap := fun _ => arm_decode_ap;
  calc_aps := arm_calc_aps;
  VCPU_DOMAIN_VAL := fun v d => Z.land (Z.shiftr (c3_DACR v) (2 * d)) 0x3;
  kvm_is_visible_gfn := fun v g =>
    existsb (fun s : Z * Z => (s.1 <=? g) && (g <? s.1 + s.2)) (memslots v);
  pfn_valid := fun p => (0 <=? p) && (p <? 2 ^ 20);
  get_free_page := fun v =>
    let p := max_key 0xff (pages v) + 1 in
    if p <? 2 ^ 20 then Some p else None;
  get_free_pages2 := fun v =>
    let a := max_key 0xc0000000 (pgds v) + 0x4000 in
    if a <? 2 ^ 32 then Some a else None;
  kmalloc_ok := fun _ => true;
  virt_to_phys := fun a => a - 0xc0000000
|}.

(** A virtual CPU with nothing mapped: MMU and extended paging on when
    [cr] says so, one memory slot of 64 MiB at guest frame 0. *)
Definition vcpu0 (cr dacr : Z) (mem : gmap Z Z) : kvm_vcpu :=
  Vcpu cr 0x4000 dacr 0 0 0 ARM_EXCEPTION_DATA_ABORT 0 0 0x200 0 [] None mem
    [(0, 0x4000)] ∅ ∅ [].

Definition CR_M : Z := 0x1.
Definition CR_XP : Z := Z.shiftl 1 23.

(** The second stage of a walk through a Coarse entry, as [gva_to_gfn]
    dispatches it on [kvm_mmu_xp]. *)
Definition l2_stage `{!KvmHost} (vcpu : kvm_vcpu) (gva desc gfn domain_type
    uaccess : Z) (mi : map_info) : outcome walk :=
  if kvm_mmu_xp vcpu
  then trans_coarse_entry_xp vcpu gva desc gfn domain_type uaccess mi
  else trans_coarse_entry vcpu gva desc gfn domain_type uaccess mi.

(** Where the walk reads its two descriptors. *)
Definition l1_desc_addr `{!KvmHost} (vcpu : kvm_vcpu) (gva : Z) : Z :=
  Z.lor (kvm_guest_ttbr vcpu gva)
    (Z.shiftr (Z.land gva VA_L1_IDX_MASK) VA_L1_IDX_SHIFT).

Definition l2_desc_addr (l1_entry gva : Z) : Z :=
  Z.lor (Z.land l1_entry L1_COARSE_MASK)
    (Z.shiftr (Z.land gva VA_L2_IDX_MASK) VA_L2_IDX_SHIFT).

(** A guest with one Coarse entry of domain 0 for the megabyte at 1 MiB,
    whose second-level table is all Fault. *)
Definition guest_coarse_fault : gmap Z Z :=
  <[0x4004 := 0x8001]> (<[0x8000 := 0]> ∅).

Definition XP_ON : Z := Z.lor CR_M CR_XP.

(** A virtual CPU with one fresh shadow root, at [root0_pgd]. *)
Definition root0 (dacr : Z) : kvm_vcpu :=
  (kvm_alloc_l1_shadow (vcpu0 XP_ON dacr ∅) 0x4000).2.

Definition root0_pgd : Z := 0xc0004000.

(** The same with a raw word stored in the first-level entry [idx]. *)
Definition root0_with (dacr : Z) (idx : nat) (e : Z) : kvm_vcpu :=
  set_pgds (alter (fun t => <[idx := e]> t) root0_pgd (pgds (root0 dacr)))
    (root0 dacr).

(** Install one page and give its megabyte back; the result and the log of
    released guest pages. *)
Definition install_then_unmap_section (dacr gva pfn domain priv_ap user_ap : Z)
  : outcome (Z * list (Z * bool)) :=
  '(_, v) ← map_gva_to_pfn (root0 dacr) root0_pgd gva pfn domain priv_ap user_ap 0;
  '(r, v) ← unmap_gva_section v root0_pgd gva;
  Ret (r, released v).

(** A guest with one Section entry of domain 4, read-write for all, for the
    megabyte at 1 MiB. *)
Definition guest_section_dom4 : gmap Z Z := <[0x4004 := 0x00100c82]> ∅.

(** The use count, the populated tables and the tables in use of frame
    [p] after a run. *)
Definition frame_counts (o : outcome kvm_vcpu) (p : Z) : option (Z * Z * Z) :=
  match o with
  | Ret v =>
      pg ← pages v !! p;
      Some (page_private pg, populated_subtables pg, live_subtables v p)
  | _ => None
  end.

(** Runs used below. *)
Definition ops_two_roots : list shadow_op :=
  [OpAllocRoot 0x4000;
   OpMap root0_pgd 0x00100000 0x1234 0 2 2 0;
   OpMap root0_pgd 0x00200000 0x1235 0 2 2 0;
   OpAllocRoot 0x8000;
   OpMap 0xc0008000 0x00200000 0x1235 0 2 2 0;
   OpUnmap root0_pgd 0x00200000;
   OpFreeRoot (ShadowPgtable root0_pgd 0x4000 0x4000)].

Definition ops_map_unmap : list shadow_op :=
  [OpAllocRoot 0x4000;
   OpMap root0_pgd 0x00100000 0x1234 0 2 2 0;
   OpUnmap root0_pgd 0x00100000].

Definition ops_dangling : list shadow_op :=
  [OpAllocRoot 0x4000;
   OpMap root0_pgd 0x00100000 0x1234 0 2 2 0;
   OpUnmapSection root0_pgd 0x00100000;
   OpMap root0_pgd 0x00200000 0x1235 0 2 2 0].

Definition ops_stale : list shadow_op :=
  [OpAllocRoot 0x4000;
   OpMap root0_pgd 0x00100000 0x1234 0 2 2 0;
   OpMap root0_pgd 0x00200000 0x1235 0 2 2 0;
   OpUnmapSection root0_pgd 0x00100000].

(** The place of the second-level entry for [gva] in the table a Coarse
    first-level entry [e] points at, as [get_l2_base] and the callers
    compute it. *)
Definition shadow_l2_ptr (e gva : Z) : l2_ptr :=
  (Z.shiftr e PAGE_SHIFT,
   Z.shiftr (Z.land e 0xc00) 2 + Z.land (Z.shiftr gva 12) 0xff).

(** Every word of every second-level frame is zero or a descriptor that is
    not Fault: the manager stores nothing else. *)
Definition l2_words_ok (vcpu : kvm_vcpu) : Prop :=
  forall p pg w, pages vcpu !! p = Some pg -> w ∈ page_words pg ->
                 w = 0 \/ Z.land w L2_TYPE_MASK <> L2_TYPE_FAULT.

(** [gva] lies in the megabyte of the shared page or in the megabyte of
    the current exception-vector base of the host. *)
Definition in_special_region `{!KvmHost} (vcpu : kvm_vcpu) (gva : Z) : Prop :=
  Z.shiftr gva 20 = Z.shiftr SHARED_PAGE_BASE 20
  \/ Z.shiftr gva 20 = Z.shiftr (VCPU_HOST_EXCP_BASE vcpu) 20.

Definition l1_domain (e : Z) : Z :=
  Z.shiftr (Z.land e L1_DOMAIN_MASK) L1_DOMAIN_SHIFT.

(** After an install: the domain of the first-level entry for [gva], and
    the access-permission bits and the APX bit of its second-level entry. *)
Definition installed_fields (o : outcome (Z * kvm_vcpu)) (pgd gva : Z)
  : option (Z * Z * Z) :=
  match o with
  | Ret (_, v) =>
      match read_l1 v pgd (Z.shiftr gva 20) with
      | Ret e =>
          match read_l2 v (shadow_l2_ptr e gva) with
          | Ret d => Some (l1_domain e, Z.land (Z.shiftr d 4) 0x3,
                           Z.land (Z.shiftr d 9) 0x1)
          | _ => None
          end
      | _ => None
      end
  | _ => None
  end.

(** * Properties *)

(** Discharges the premises of [H] at a concrete input by evaluation. *)
Ltac discharge H :=
  repeat lazymatch type of H with
         | ?A -> _ =>
             let h := fresh in
             assert (h : A) by (vm_compute; first [reflexivity | congruence | lia]);
             specialize (H h)
         end.


Section WalkerFacts.
Context `{!KvmHost}.

(** C9. With the guest MMU disabled, [gva_to_gfn] returns 0 with the frame
    [gva >> 12] and the widest permissions (ap 0xff, apx 0, xn 0).  The
    result is the same for every guest memory and every translation-table
    base: no descriptor is read. *)
Theorem gva_to_gfn_mmu_disabled (vcpu : kvm_vcpu) (gva gfn uaccess : Z)
    (mi : map_info) :
  kvm_mmu_enabled vcpu = false ->
  gva_to_gfn vcpu gva gfn uaccess mi
    = Ret (0, Z.shiftr gva PAGE_SHIFT, MapInfo 0 0xff 0 0 0x0c).
Proof.
  intros Hoff. unfold gva_to_gfn. rewrite Hoff. reflexivity.
Qed.

(** C1. On a walk through a Coarse first-level entry whose second stage
    completes with a fault code or with success: when the domain check gives
    No-Access the call returns [FSR_DOMAIN_PAG], whatever the second stage
    found; when the domain check passes and the second stage reports a
    fault, that fault code is returned. *)
Theorem gva_to_gfn_coarse_fault_priority (vcpu : kvm_vcpu)
    (gva gfn uaccess : Z) (mi : map_info) (l1_entry l2_entry err g : Z)
    (mi' : map_info) :
  kvm_mmu_enabled vcpu = true ->
  guest_mem vcpu !! l1_desc_addr vcpu gva = Some l1_entry ->
  Z.land l1_entry L1_TYPE_MASK = L1_TYPE_COARSE ->
  guest_mem vcpu !! l2_desc_addr l1_entry gva = Some l2_entry ->
  l2_stage vcpu gva l2_entry gfn (u8 (l1_domain_access vcpu l1_entry mi).1)
    uaccess (l1_domain_access vcpu l1_entry mi).2 = Ret (err, g, mi') ->
  0 <= err ->
  (u8 (l1_domain_access vcpu l1_entry mi).1 = DOMAIN_NOACCESS ->
     gva_to_gfn vcpu gva gfn uaccess mi = Ret (FSR_DOMAIN_PAG, g, mi'))
  /\ (u8 (l1_domain_access vcpu l1_entry mi).1 <> DOMAIN_NOACCESS ->
      0 < err ->
      gva_to_gfn vcpu gva gfn uaccess mi = Ret (err, g, mi')).
Proof.
  intros Hon Hl1 Hty Hl2 Hstage Herr.
  destruct (l1_domain_access vcpu l1_entry mi) as [dt mi1] eqn:Hdom.
  cbn [fst snd] in *.
  unfold l1_desc_addr in Hl1. unfold l2_desc_addr in Hl2.
  unfold l2_stage in Hstage.
  unfold gva_to_gfn, get_guest_pgtable_entry.
  rewrite Hon, Hl1. cbn [negb]. change (0 <? 0) with false. cbv iota.
  rewrite Hty. unfold L1_TYPE_COARSE. cbv iota.
  rewrite Hdom, Hl2. change (0 <? 0) with false. cbv iota.
  assert (Hneg : (err <? 0) = false) by lia.
  assert (Hrun : forall k : walk -> outcome walk,
            (if kvm_mmu_xp vcpu
             then trans_coarse_entry_xp vcpu gva l2_entry gfn (u8 dt) uaccess mi1
             else trans_coarse_entry vcpu gva l2_entry gfn (u8 dt) uaccess mi1)
              ≫= k = k (err, g, mi')).
  { intros k. destruct (kvm_mmu_xp vcpu); rewrite Hstage; reflexivity. }
  rewrite Hrun, Hneg.
  split.
  - intros Hno. rewrite Hno. reflexivity.
  - intros Hacc Hpos.
    assert (Hne : (u8 dt =? DOMAIN_NOACCESS) = false)
      by (apply Z.eqb_neq; exact Hacc).
    rewrite Hne. change (0 =? 0) with true.
    assert (Hp : (0 <? err) = true) by lia. rewrite Hp. reflexivity.
Qed.

End WalkerFacts.

(** The rule of C1 on a guest whose domain 0 is No-Access and whose
    second-level entry is Fault: the domain fault wins. *)
Lemma gva_to_gfn_coarse_fault_priority_witness :
  gva_to_gfn (vcpu0 (Z.lor CR_M CR_XP) 0 guest_coarse_fault) 0x00100000 0 0
    (MapInfo 0 0 0 0 0)
  = Ret (FSR_DOMAIN_PAG, 0xffffff, MapInfo 0 0 0 0 0).
Proof.
  pose proof (gva_to_gfn_coarse_fault_priority
                (vcpu0 (Z.lor CR_M CR_XP) 0 guest_coarse_fault) 0x00100000 0 0
                (MapInfo 0 0 0 0 0) 0x8001 0 FSR_TRANS_PAGE 0xffffff
                (MapInfo 0 0 0 0 0)) as H.
  discharge H. destruct H as [H _]. apply H. vm_compute. reflexivity.
Defined.

Section ShadowFacts.
Context `{!KvmHost}.

(** C7. [map_gva_to_pfn] returns [-EINVAL] and leaves every table as it was
    when privileged access is none and user access is not; when, with
    extended paging, privileged access is read-only and user access is
    read-write; and when, without extended paging, privileged access is
    read-only. *)
Theorem map_gva_to_pfn_rejects (vcpu : kvm_vcpu)
    (pgd gva pfn domain priv_ap user_ap exec : Z) :
  (priv_ap = KVM_AP_NONE /\ user_ap <> KVM_AP_NONE)
  \/ (kvm_mmu_xp vcpu = true /\ priv_ap = KVM_AP_RDONLY
      /\ user_ap = KVM_AP_RDWRITE)
  \/ (kvm_mmu_xp vcpu = false /\ priv_ap = KVM_AP_RDONLY) ->
  map_gva_to_pfn vcpu pgd gva pfn domain priv_ap user_ap exec
    = Ret (- EINVAL, vcpu).
Proof.
  intros Hbad. unfold map_gva_to_pfn.
  destruct ((priv_ap =? KVM_AP_NONE) && negb (user_ap =? KVM_AP_NONE)) eqn:Hfirst;
    [reflexivity|].
  destruct Hbad as [[Hp Hu] | [[Hxp [Hp Hu]] | [Hxp Hp]]].
  - apply Z.eqb_eq in Hp. apply Z.eqb_neq in Hu.
    rewrite Hp, Hu in Hfirst. discriminate.
  - rewrite Hxp. subst. rewrite !Z.eqb_refl. reflexivity.
  - rewrite Hxp. subst. rewrite Z.eqb_refl. reflexivity.
Qed.

(** The data-abort branch of [kvm_generate_mmu_fault] ends by storing the
    raw source code in the fault-status register. *)
Lemma kvm_generate_mmu_fault_data (vcpu : kvm_vcpu) (fault_addr source domain : Z) :
  guest_exception vcpu <> ARM_EXCEPTION_PREF_ABORT ->
  let vcpu' := kvm_generate_mmu_fault vcpu fault_addr source domain in
  c5_DFSR vcpu' = source
  /\ c6_FAR vcpu' = fault_addr
  /\ exception_pending vcpu' = Z.lor (exception_pending vcpu) EXCEPTION_DATA.
Proof.
  intros Hne. unfold kvm_generate_mmu_fault.
  apply Z.eqb_neq in Hne. rewrite Hne. cbn. auto.
Qed.

(** The prefetch-abort branch stores the masked code and the domain. *)
Lemma kvm_generate_mmu_fault_prefetch (vcpu : kvm_vcpu)
    (fault_addr source domain : Z) :
  guest_exception vcpu = ARM_EXCEPTION_PREF_ABORT ->
  let vcpu' := kvm_generate_mmu_fault vcpu fault_addr source domain in
  c5_IFSR vcpu'
    = Z.lor (Z.land source FSR_TYPE_MASK) (Z.shiftl (Z.land domain 0xf) 4)
  /\ exception_pending vcpu'
     = Z.lor (exception_pending vcpu) EXCEPTION_PREFETCH.
Proof.
  intros He. unfold kvm_generate_mmu_fault.
  apply Z.eqb_eq in He. rewrite He. cbn. auto.
Qed.

(** C4, at a data abort with source [FSR_DOMAIN_PAG] and domain 3: the
    fault-status register ends as [0xb]; its bits [7:4] are 0, not the
    domain, while the prefetch branch on the same arguments stores [0x3b]. *)
Theorem kvm_generate_mmu_fault_data_drops_domain (vcpu : kvm_vcpu) :
  guest_exception vcpu = ARM_EXCEPTION_DATA_ABORT ->
  let vcpu' := kvm_generate_mmu_fault vcpu 0x1000 FSR_DOMAIN_PAG 3 in
  c5_DFSR vcpu' = 0xb
  /\ Z.land (Z.shiftr (c5_DFSR vcpu') 4) 0xf = 0.
Proof.
  intros He. unfold kvm_generate_mmu_fault. rewrite He. cbn. auto.
Qed.

End ShadowFacts.

(** The evaluation of C4 on a virtual CPU that took a data abort. *)
Lemma kvm_generate_mmu_fault_data_drops_domain_witness :
  c5_DFSR (kvm_generate_mmu_fault (vcpu0 CR_M 0 ∅) 0x1000 FSR_DOMAIN_PAG 3)
  = 0xb.
Proof.
  exact (proj1 (kvm_generate_mmu_fault_data_drops_domain (vcpu0 CR_M 0 ∅)
                  eq_refl)).
Defined.

(** The rejection of C7 on the concrete host: privileged none, user
    read-write. *)
Lemma map_gva_to_pfn_rejects_witness :
  map_gva_to_pfn (vcpu0 CR_M 0 ∅) 0 0 0x300 0 0 2 0
  = Ret (- EINVAL, vcpu0 CR_M 0 ∅).
Proof.
  apply (map_gva_to_pfn_rejects (vcpu0 CR_M 0 ∅) 0 0 0x300 0 0 2 0).
  left. split; [reflexivity | discriminate].
Defined.

(** C5, on a page of domain 0 while the register makes domain 0 Manager:
    the page was installed read-write and is released clean.  The register
    value [mapping_is_guest_writable] switches on still carries the fields
    of the domains above [domain], so no case of the switch is taken. *)
Theorem manager_page_released_clean :
  VCPU_DOMAIN_VAL (root0 0x3) 0 = DOMAIN_MANAGER
  /\ install_then_unmap_section 0x3 0x00100000 0x1234 0 2 2
     = Ret (0, [(0x1234, false)]).
Proof. vm_compute. split; reflexivity. Qed.

(** C6, on a Section of domain 4 while the register makes domain 4
    Manager: the walk reports a domain fault. *)
Theorem manager_domain4_section_faults :
  VCPU_DOMAIN_VAL (vcpu0 CR_M 0x300 guest_section_dom4) 4 = DOMAIN_MANAGER
  /\ gva_to_gfn (vcpu0 CR_M 0x300 guest_section_dom4) 0x00100000 0 0
       (MapInfo 0 0 0 0 0)
     = Ret (FSR_DOMAIN_SEC, 0x100, MapInfo 4 0xff 0 0 0x30).
Proof. vm_compute. split; reflexivity. Qed.

(** ** Counting entries of the roots *)

Section CountFacts.
Implicit Types (f : Z -> bool) (t : list Z) (m : gmap Z (list Z)).

Lemma b2z_range (b : bool) : 0 <= b2z b <= 1.
Proof. destruct b; simpl; lia. Qed.

Lemma count_l1_nonneg f t : 0 <= count_l1 f t.
Proof.
  induction t as [|e t IH]; simpl; [lia|].
  pose proof (b2z_range (f e)). lia.
Qed.

Lemma count_l1_insert f t (i : nat) e0 e :
  t !! i = Some e0 ->
  count_l1 f (<[i := e]> t) = count_l1 f t - b2z (f e0) + b2z (f e).
Proof.
  revert i. induction t as [|x t IH]; intros [|i] Hi; simpl in *; try discriminate.
  - injection Hi as ->. lia.
  - rewrite (IH i Hi). lia.
Qed.

Lemma count_l1_none f t :
  (forall e, e ∈ t -> f e = false) -> count_l1 f t = 0.
Proof.
  induction t as [|x t IH]; intros Hall; simpl; [reflexivity|].
  rewrite (Hall x) by constructor. rewrite IH; [reflexivity|].
  intros e He. apply Hall. by constructor.
Qed.

Lemma count_l1_replicate f (n : nat) :
  f 0 = false -> count_l1 f (replicate n 0) = 0.
Proof.
  intros Hf. apply count_l1_none. intros e He.
  apply elem_of_replicate in He as [-> _]. exact Hf.
Qed.

Lemma refs_of_empty f : refs_of f ∅ = 0.
Proof. unfold refs_of. apply map_fold_empty. Qed.

Lemma refs_of_insert f m a t :
  m !! a = None -> refs_of f (<[a := t]> m) = count_l1 f t + refs_of f m.
Proof.
  intros Ha. unfold refs_of. rewrite map_fold_insert_L; [reflexivity| |exact Ha].
  intros. lia.
Qed.

Lemma refs_of_delete f m a t :
  m !! a = Some t -> refs_of f m = count_l1 f t + refs_of f (delete a m).
Proof.
  intros Ha. rewrite <- (insert_delete_id m a t Ha) at 1.
  apply refs_of_insert. apply lookup_delete_eq.
Qed.

Lemma refs_of_update f m a t t' :
  m !! a = Some t ->
  refs_of f (<[a := t']> m) = refs_of f m - count_l1 f t + count_l1 f t'.
Proof.
  intros Ha. rewrite (refs_of_delete f m a t Ha).
  rewrite <- insert_delete_eq.
  rewrite refs_of_insert by apply lookup_delete_eq. lia.
Qed.

Lemma refs_of_nonneg f m : 0 <= refs_of f m.
Proof.
  induction m as [|a t m Ha _ IH] using map_first_key_ind.
  - rewrite refs_of_empty. lia.
  - rewrite refs_of_insert by exact Ha. pose proof (count_l1_nonneg f t). lia.
Qed.

Lemma refs_of_write f m a t (i : nat) e0 e :
  m !! a = Some t -> t !! i = Some e0 ->
  refs_of f (<[a := <[i := e]> t]> m) = refs_of f m - b2z (f e0) + b2z (f e).
Proof.
  intros Ha Hi. rewrite (refs_of_update f m a t _ Ha).
  rewrite (count_l1_insert f t i e0 e Hi). lia.
Qed.

End CountFacts.

(** ** The bit fields of the descriptors the manager writes *)

Section DescriptorBits.

Lemma small_land (x n : Z) : 0 <= n -> 0 <= x < 2 ^ n -> x = Z.land x (Z.ones n).
Proof.
  intros Hn Hx. rewrite Z.land_ones by lia. symmetry. apply Z.mod_small. lia.
Qed.

Lemma l1_slot_alt (e : Z) : l1_slot e = Z.land (Z.shiftr e 10) (Z.ones 2).
Proof.
  unfold l1_slot. change 0xc00 with (Z.shiftl (Z.ones 2) 10). Z.bitblast.
Qed.

Lemma l1_slot_range (e : Z) : 0 <= l1_slot e < 4.
Proof.
  rewrite l1_slot_alt, Z.land_ones by lia. apply Z.mod_pos_bound. lia.
Qed.

(** The Coarse entry [__map_gva_to_pfn] stores over a Fault entry, for the
    table at word [256 * s] of frame [p]. *)
Lemma new_coarse_entry (p s d : Z) :
  0 <= p < 2 ^ 20 -> 0 <= s < 4 ->
  let e :=
    Z.lor (Z.lor (Z.land (Z.lor (u32 (Z.shiftl p PAGE_SHIFT))
                            (Z.land (256 * s * 4) (PAGE_SIZE - 1)))
                    L1_COARSE_MASK) L1_TYPE_COARSE)
      (Z.shiftl (Z.land d 0xf) L1_DOMAIN_SHIFT) in
  l1_is_coarse e = true /\ l1_frame e = p /\ l1_slot e = s
  /\ Z.shiftr (Z.land e L1_DOMAIN_MASK) L1_DOMAIN_SHIFT = Z.land d 0xf.
Proof.
  intros Hp Hs e. subst e.
  unfold l1_is_coarse, l1_frame, u32. rewrite l1_slot_alt.
  replace (256 * s * 4) with (Z.shiftl s 10) by (rewrite Z.shiftl_mul_pow2; lia).
  change (PAGE_SIZE - 1) with (Z.ones 12).
  change L1_COARSE_MASK with (Z.lnot (Z.ones 10)).
  change L1_TYPE_COARSE with (Z.ones 1).
  change L1_TYPE_MASK with (Z.ones 2).
  change L1_DOMAIN_MASK with (Z.shiftl (Z.ones 4) 5).
  change L1_DOMAIN_SHIFT with 5. change PAGE_SHIFT with 12.
  change 0xf with (Z.ones 4).
  rewrite (small_land p 20) by lia. rewrite (small_land s 2) by lia.
  repeat split.
  - apply Z.eqb_eq. Z.bitblast.
  - Z.bitblast.
  - Z.bitblast.
  - Z.bitblast.
Qed.

(** Rewriting the domain field of a first-level entry keeps its type, its
    frame and its slot. *)
Lemma domain_update (e d : Z) :
  let e' := Z.lor (Z.land e (Z.lnot L1_DOMAIN_MASK))
              (Z.shiftl (Z.land d 0xf) L1_DOMAIN_SHIFT) in
  l1_is_coarse e' = l1_is_coarse e /\ l1_frame e' = l1_frame e
  /\ l1_slot e' = l1_slot e
  /\ Z.shiftr (Z.land e' L1_DOMAIN_MASK) L1_DOMAIN_SHIFT = Z.land d 0xf.
Proof.
  intros e'. subst e'. unfold l1_is_coarse, l1_frame. rewrite !l1_slot_alt.
  change L1_TYPE_MASK with (Z.ones 2).
  change L1_DOMAIN_MASK with (Z.shiftl (Z.ones 4) 5).
  change L1_DOMAIN_SHIFT with 5. change PAGE_SHIFT with 12.
  change 0xf with (Z.ones 4).
  repeat split.
  - f_equal. Z.bitblast.
  - Z.bitblast.
  - Z.bitblast.
  - Z.bitblast.
Qed.

(** The second-level descriptor with its constants spelled as runs of
    ones, the form in which its bits can be read off. *)
Lemma l2_descriptor_bits (pfn xn ap apx g : Z) :
  let d :=
    Z.lor (Z.lor (Z.lor (Z.land (Z.lor (Z.lor (Z.lor
      (Z.shiftl pfn 12 mod 2 ^ 32) (Z.shiftl (Z.ones 1) 1))
      (Z.land xn (Z.ones 1))) (Z.shiftl (Z.ones 2) 2))
      (Z.lnot (Z.shiftl (Z.ones 8) 4)))
      (Z.shiftl (Z.land ap (Z.ones 2)) 4))
      (Z.shiftl (Z.land apx (Z.ones 1)) 9))
      (Z.shiftl (Z.land g (Z.ones 1)) 11) in
  Z.testbit (Z.land d (Z.ones 2)) 1 = true
  /\ Z.land (Z.shiftr d 4) (Z.ones 2) = Z.land ap (Z.ones 2)
  /\ Z.land (Z.shiftr d 9) (Z.ones 1) = Z.land apx (Z.ones 1).
Proof.
  intros d. subst d. repeat split.
  - Z.rewrite_bitwise. reflexivity.
  - Z.bitblast.
  - Z.bitblast.
Qed.

(** The second-level descriptor is never a Fault one, and carries the two
    low access-permission bits and the APX bit it was given. *)
Lemma l2_descriptor_fields (pfn xn ap apx nG : Z) :
  nG = 0 \/ nG = 1 ->
  let d := l2_descriptor pfn xn ap apx nG in
  Z.land d L2_TYPE_MASK <> L2_TYPE_FAULT
  /\ Z.land (Z.shiftr d 4) 0x3 = Z.land ap 0x3
  /\ Z.land (Z.shiftr d 9) 0x1 = Z.land apx 0x1.
Proof.
  intros HnG d.
  assert (Hg : nG = Z.land nG (Z.ones 1)) by (destruct HnG as [-> | ->]; reflexivity).
  destruct (l2_descriptor_bits pfn xn ap apx nG) as (Hty & Hap & Hapx).
  rewrite <- Hg in Hty, Hap, Hapx.
  repeat split.
  - intros Hz. subst d. unfold l2_descriptor, u32.
    change (Z.land (l2_descriptor pfn xn ap apx nG) (Z.ones 2) = 0) in Hz.
    unfold l2_descriptor, u32 in Hz.
    change (Z.testbit (Z.land (l2_descriptor pfn xn ap apx nG) (Z.ones 2)) 1 = true) in Hty.
    unfold l2_descriptor, u32 in Hty.
    rewrite Hz in Hty. discriminate.
  - exact Hap.
  - exact Hapx.
Qed.

End DescriptorBits.

(** ** The invariant under the elementary changes of the tables *)

Section InvFacts.
Implicit Types (C : gmap Z Z) (R : gmap Z (list Z)) (U : option l2_ptr).

Lemma coarse_to_zero (p : Z) : coarse_to p 0 = false.
Proof. reflexivity. Qed.

Lemma coarse_to_slot_zero (p s : Z) : coarse_to_slot p s 0 = false.
Proof. reflexivity. Qed.

Lemma coarse_to_not_coarse (p e : Z) : l1_is_coarse e = false -> coarse_to p e = false.
Proof. intros He. unfold coarse_to. rewrite He. reflexivity. Qed.

Lemma coarse_to_slot_not_coarse (p s e : Z) :
  l1_is_coarse e = false -> coarse_to_slot p s e = false.
Proof. intros He. unfold coarse_to_slot. rewrite coarse_to_not_coarse; auto. Qed.

Lemma coarse_to_coarse (p e : Z) :
  l1_is_coarse e = true -> coarse_to p e = (l1_frame e =? p).
Proof. intros He. unfold coarse_to. rewrite He. reflexivity. Qed.

Lemma count_l1_le (f g : Z -> bool) (t : list Z) :
  (forall e, f e = true -> g e = true) -> count_l1 f t <= count_l1 g t.
Proof.
  intros Hfg. induction t as [|e t IH]; simpl; [lia|].
  destruct (f e) eqn:Hf; [rewrite (Hfg e Hf); simpl; lia|].
  pose proof (b2z_range (g e)). simpl. lia.
Qed.

Lemma refs_of_le (f g : Z -> bool) R :
  (forall e, f e = true -> g e = true) -> refs_of f R <= refs_of g R.
Proof.
  intros Hfg. induction R as [|a t R Ha _ IH] using map_first_key_ind.
  - rewrite !refs_of_empty. lia.
  - rewrite !refs_of_insert by exact Ha.
    pose proof (count_l1_le f g t Hfg). lia.
Qed.

Lemma refs_slot_le_frame (p s : Z) R :
  refs_of (coarse_to_slot p s) R <= refs_of (coarse_to p) R.
Proof.
  apply refs_of_le. intros e He. unfold coarse_to_slot in He.
  apply andb_true_iff in He. tauto.
Qed.

Lemma roots_shape_write R a t (i : nat) (e : Z) :
  (forall a t, R !! a = Some t -> length t = 4096%nat) -> R !! 0 = None ->
  R !! a = Some t ->
  (forall a' t', <[a := <[i := e]> t]> R !! a' = Some t' -> length t' = 4096%nat)
  /\ <[a := <[i := e]> t]> R !! 0 = None.
Proof.
  intros Hlen Hnull Ha. split.
  - intros a' t' Ht'. destruct (decide (a = a')) as [<- | Hne].
    + rewrite lookup_insert_eq in Ht'. injection Ht' as <-.
      rewrite length_insert. eauto.
    + rewrite lookup_insert_ne in Ht' by exact Hne. eauto.
  - rewrite lookup_insert_ne; [exact Hnull|]. congruence.
Qed.

(** An entry is replaced by one of the same type, frame and slot. *)
Lemma inv_same_ref C R U a t (i : nat) (e0 e : Z) :
  shadow_inv_on C R U -> R !! a = Some t -> t !! i = Some e0 ->
  l1_is_coarse e = l1_is_coarse e0 -> l1_frame e = l1_frame e0 ->
  l1_slot e = l1_slot e0 ->
  shadow_inv_on C (<[a := <[i := e]> t]> R) U.
Proof.
  intros [I1 I2 I3 I4 I5 I6] Ha Hi Hc Hf Hs.
  assert (Hr1 : forall p, refs_of (coarse_to p) (<[a := <[i := e]> t]> R)
                          = refs_of (coarse_to p) R).
  { intros p. rewrite (refs_of_write _ R a t i e0 e Ha Hi).
    unfold coarse_to. rewrite Hc, Hf. lia. }
  assert (Hr2 : forall p s, refs_of (coarse_to_slot p s) (<[a := <[i := e]> t]> R)
                          = refs_of (coarse_to_slot p s) R).
  { intros p s. rewrite (refs_of_write _ R a t i e0 e Ha Hi).
    unfold coarse_to_slot, coarse_to. rewrite Hc, Hf, Hs. lia. }
  destruct (roots_shape_write R a t i e I5 I6 Ha) as [Hlen Hnull].
  constructor; try assumption.
  - intros p c Hp. rewrite Hr1. eauto.
  - intros p Hp. rewrite Hr1 in Hp. eauto.
  - intros p s. rewrite Hr2. eauto.
  - intros p w HU. destruct (I4 p w HU) as (Hw & Hp & Hfree).
    split; [exact Hw|]. split; [exact Hp|].
    intros Hlive s Hs'. rewrite Hr2. eauto.
Qed.

(** A Fault entry becomes a Coarse entry for the first table of a frame
    the allocator just gave. *)
Lemma inv_add_ref_fresh C R a t (i : nat) (e0 e p : Z) :
  shadow_inv_on C R None -> R !! a = Some t -> t !! i = Some e0 ->
  l1_is_coarse e0 = false ->
  l1_is_coarse e = true -> l1_frame e = p -> l1_slot e = 0 ->
  C !! p = None -> 0 <= p < 2 ^ 20 ->
  shadow_inv_on (<[p := 1]> C) (<[a := <[i := e]> t]> R) (Some (p, 256)).
Proof.
  intros [I1 I2 I3 I4 I5 I6] Ha Hi Hc0 Hc Hf Hs Hp Hrange.
  assert (Hzero : refs_of (coarse_to p) R = 0).
  { pose proof (refs_of_nonneg (coarse_to p) R).
    destruct (Z.eq_dec (refs_of (coarse_to p) R) 0) as [|Hne]; [assumption|].
    destruct (I2 p) as [c Hc']; [lia | congruence]. }
  assert (Hr1 : forall q, refs_of (coarse_to q) (<[a := <[i := e]> t]> R)
                          = refs_of (coarse_to q) R + b2z (p =? q)).
  { intros q. rewrite (refs_of_write _ R a t i e0 e Ha Hi).
    rewrite (coarse_to_not_coarse q e0 Hc0), (coarse_to_coarse q e Hc), Hf.
    simpl. lia. }
  assert (Hr2 : forall q s, refs_of (coarse_to_slot q s) (<[a := <[i := e]> t]> R)
                 = refs_of (coarse_to_slot q s) R + b2z ((p =? q) && (0 =? s))).
  { intros q s. rewrite (refs_of_write _ R a t i e0 e Ha Hi).
    rewrite (coarse_to_slot_not_coarse q s e0 Hc0).
    unfold coarse_to_slot. rewrite (coarse_to_coarse q e Hc), Hf, Hs.
    simpl. lia. }
  destruct (roots_shape_write R a t i e I5 I6 Ha) as [Hlen Hnull].
  constructor; try assumption.
  - intros q c Hq. rewrite Hr1. destruct (decide (p = q)) as [<- | Hne].
    + rewrite lookup_insert_eq in Hq. injection Hq as <-.
      rewrite Hzero, Z.eqb_refl. reflexivity.
    + rewrite lookup_insert_ne in Hq by exact Hne.
      apply Z.eqb_neq in Hne. rewrite Hne. simpl. rewrite (I1 q c Hq). lia.
  - intros q Hq. rewrite Hr1 in Hq. destruct (decide (p = q)) as [<- | Hne].
    + rewrite lookup_insert_eq. eauto.
    + rewrite lookup_insert_ne by exact Hne.
      apply I2. apply Z.eqb_neq in Hne. rewrite Hne in Hq. simpl in Hq. lia.
  - intros q s. rewrite Hr2. destruct (decide (p = q)) as [<- | Hne].
    + pose proof (refs_slot_le_frame p s R).
      pose proof (refs_of_nonneg (coarse_to_slot p s) R).
      pose proof (b2z_range ((p =? p) && (0 =? s))). lia.
    + apply Z.eqb_neq in Hne. rewrite Hne. simpl.
      pose proof (I3 q s). lia.
  - intros q w HU. injection HU as <- <-.
    split; [tauto|]. split; [exact Hrange|].
    intros _ s Hs'. rewrite Hr2.
    assert (H0s : (0 =? s) = false) by lia. rewrite H0s, andb_false_r. simpl.
    pose proof (refs_slot_le_frame p s R).
    pose proof (refs_of_nonneg (coarse_to_slot p s) R). lia.
Qed.

(** A Fault entry becomes a Coarse entry for the next unused table of the
    frame the manager is filling. *)
Lemma inv_add_ref_next C R a t (i : nat) (e0 e p w s c : Z) :
  shadow_inv_on C R (Some (p, w)) -> R !! a = Some t -> t !! i = Some e0 ->
  l1_is_coarse e0 = false ->
  l1_is_coarse e = true -> l1_frame e = p -> l1_slot e = s -> w = 256 * s ->
  C !! p = Some c ->
  shadow_inv_on (<[p := c + 1]> C) (<[a := <[i := e]> t]> R)
    (if ((w + 256) * 4) mod 4096 =? 0 then None else Some (p, w + 256)).
Proof.
  intros [I1 I2 I3 I4 I5 I6] Ha Hi Hc0 Hc Hf Hs Hw Hp.
  destruct (I4 p w eq_refl) as (Hwv & Hrange & Hfree).
  specialize (Hfree (ex_intro _ c Hp)).
  assert (Hr1 : forall q, refs_of (coarse_to q) (<[a := <[i := e]> t]> R)
                          = refs_of (coarse_to q) R + b2z (p =? q)).
  { intros q. rewrite (refs_of_write _ R a t i e0 e Ha Hi).
    rewrite (coarse_to_not_coarse q e0 Hc0), (coarse_to_coarse q e Hc), Hf.
    simpl. lia. }
  assert (Hr2 : forall q s', refs_of (coarse_to_slot q s') (<[a := <[i := e]> t]> R)
                 = refs_of (coarse_to_slot q s') R + b2z ((p =? q) && (s =? s'))).
  { intros q s'. rewrite (refs_of_write _ R a t i e0 e Ha Hi).
    rewrite (coarse_to_slot_not_coarse q s' e0 Hc0).
    unfold coarse_to_slot. rewrite (coarse_to_coarse q e Hc), Hf, Hs.
    simpl. lia. }
  destruct (roots_shape_write R a t i e I5 I6 Ha) as [Hlen Hnull].
  constructor; try assumption.
  - intros q c' Hq. rewrite Hr1. destruct (decide (p = q)) as [<- | Hne].
    + rewrite lookup_insert_eq in Hq. injection Hq as <-.
      rewrite Z.eqb_refl, (I1 p c Hp). reflexivity.
    + rewrite lookup_insert_ne in Hq by exact Hne.
      apply Z.eqb_neq in Hne. rewrite Hne. simpl. rewrite (I1 q c' Hq). lia.
  - intros q Hq. rewrite Hr1 in Hq. destruct (decide (p = q)) as [<- | Hne].
    + rewrite lookup_insert_eq. eauto.
    + rewrite lookup_insert_ne by exact Hne.
      apply I2. apply Z.eqb_neq in Hne. rewrite Hne in Hq. simpl in Hq. lia.
  - intros q s'. rewrite Hr2.
    destruct (decide (p = q)) as [<- | Hne].
    + destruct (decide (s = s')) as [<- | Hns].
      * rewrite (Hfree s) by lia. rewrite !Z.eqb_refl. simpl. lia.
      * apply Z.eqb_neq in Hns. rewrite Hns, andb_false_r. simpl.
        pose proof (I3 p s'). lia.
    + apply Z.eqb_neq in Hne. rewrite Hne. simpl. pose proof (I3 q s'). lia.
  - intros q w' HU.
    destruct ((w + 256) * 4 mod 4096 =? 0) eqn:Hlast; [discriminate|].
    injection HU as <- <-.
    apply Z.eqb_neq in Hlast.
    assert (Hw2 : w = 256 \/ w = 512).
    { destruct Hwv as [-> | [-> | ->]]; [tauto | tauto |].
      exfalso. apply Hlast. reflexivity. }
    split; [lia|]. split; [exact Hrange|].
    intros _ s' Hs'. rewrite Hr2.
    assert (Hss : (s =? s') = false) by lia. rewrite Hss, andb_false_r. simpl.
    rewrite (Hfree s') by lia. reflexivity.
Qed.

(** A Coarse entry is cleared and its frame loses one use; the frame goes
    when that was the last. *)
Lemma inv_drop_ref C R U a t (i : nat) (e c : Z) :
  shadow_inv_on C R U -> R !! a = Some t -> t !! i = Some e ->
  l1_is_coarse e = true -> C !! l1_frame e = Some c ->
  c <> 0
  /\ shadow_inv_on
       (if c - 1 =? 0 then delete (l1_frame e) C else <[l1_frame e := c - 1]> C)
       (<[a := <[i := 0]> t]> R) U.
Proof.
  intros [I1 I2 I3 I4 I5 I6] Ha Hi Hc Hp.
  set (p := l1_frame e) in *.
  assert (Hr1 : forall q, refs_of (coarse_to q) (<[a := <[i := 0]> t]> R)
                          = refs_of (coarse_to q) R - b2z (p =? q)).
  { intros q. rewrite (refs_of_write _ R a t i e 0 Ha Hi).
    rewrite coarse_to_zero, (coarse_to_coarse q e Hc). simpl. fold p. lia. }
  assert (Hr2 : forall q s, refs_of (coarse_to_slot q s) (<[a := <[i := 0]> t]> R)
                 = refs_of (coarse_to_slot q s) R
                   - b2z ((p =? q) && (l1_slot e =? s))).
  { intros q s. rewrite (refs_of_write _ R a t i e 0 Ha Hi).
    rewrite coarse_to_slot_zero. unfold coarse_to_slot.
    rewrite (coarse_to_coarse q e Hc). simpl. fold p. lia. }
  assert (Hpos : 1 <= c).
  { pose proof (refs_of_nonneg (coarse_to p) (<[a := <[i := 0]> t]> R)) as Hn.
    rewrite Hr1, Z.eqb_refl in Hn. simpl in Hn. rewrite (I1 p c Hp). lia. }
  split; [lia|].
  destruct (roots_shape_write R a t i 0 I5 I6 Ha) as [Hlen Hnull].
  assert (Hkeys : forall q, is_Some
            ((if c - 1 =? 0 then delete p C else <[p := c - 1]> C) !! q) ->
            is_Some (C !! q)).
  { intros q. destruct (c - 1 =? 0).
    - destruct (decide (p = q)) as [<- | Hne].
      + rewrite lookup_delete_eq. intros [? ?]. discriminate.
      + rewrite lookup_delete_ne by exact Hne. auto.
    - destruct (decide (p = q)) as [<- | Hne]; [eauto|].
      rewrite lookup_insert_ne by exact Hne. auto. }
  constructor; try assumption.
  - intros q c' Hq. rewrite Hr1. destruct (decide (p = q)) as [<- | Hne].
    + destruct (c - 1 =? 0) eqn:Hlast.
      * rewrite lookup_delete_eq in Hq. discriminate.
      * rewrite lookup_insert_eq in Hq. injection Hq as <-.
        rewrite Z.eqb_refl, (I1 p c Hp). reflexivity.
    + assert (Hq' : C !! q = Some c').
      { destruct (c - 1 =? 0).
        - rewrite lookup_delete_ne in Hq by exact Hne. exact Hq.
        - rewrite lookup_insert_ne in Hq by exact Hne. exact Hq. }
      apply Z.eqb_neq in Hne. rewrite Hne. simpl. rewrite (I1 q c' Hq'). lia.
  - intros q Hq. rewrite Hr1 in Hq. destruct (decide (p = q)) as [<- | Hne].
    + rewrite Z.eqb_refl in Hq. simpl in Hq. rewrite <- (I1 p c Hp) in Hq.
      assert (Hlast : (c - 1 =? 0) = false) by lia. rewrite Hlast.
      rewrite lookup_insert_eq. eauto.
    + assert (Hq' : is_Some (C !! q)).
      { apply I2. apply Z.eqb_neq in Hne. rewrite Hne in Hq. simpl in Hq. lia. }
      destruct (c - 1 =? 0).
      * rewrite lookup_delete_ne by exact Hne. exact Hq'.
      * rewrite lookup_insert_ne by exact Hne. exact Hq'.
  - intros q s. rewrite Hr2. pose proof (I3 q s).
    pose proof (b2z_range ((p =? q) && (l1_slot e =? s))). lia.
  - intros q w HU. destruct (I4 q w HU) as (Hw & Hrange & Hfree).
    split; [exact Hw|]. split; [exact Hrange|].
    intros Hlive s Hs. specialize (Hfree (Hkeys q Hlive) s Hs).
    pose proof (refs_of_nonneg (coarse_to_slot q s) (<[a := <[i := 0]> t]> R)) as Hn.
    rewrite Hr2 in Hn |- *.
    pose proof (b2z_range ((p =? q) && (l1_slot e =? s))). lia.
Qed.

(** A fresh root, all Fault, joins the roots. *)
Lemma inv_new_root C R U (a : Z) :
  shadow_inv_on C R U -> R !! a = None -> a <> 0 ->
  shadow_inv_on C (<[a := replicate (Z.to_nat L1_TABLE_ENTRIES) 0]> R) U.
Proof.
  intros [I1 I2 I3 I4 I5 I6] Ha Hnz.
  assert (Hr : forall f, f 0 = false ->
            refs_of f (<[a := replicate (Z.to_nat L1_TABLE_ENTRIES) 0]> R)
            = refs_of f R).
  { intros f Hf. rewrite refs_of_insert by exact Ha.
    rewrite count_l1_replicate by exact Hf. lia. }
  constructor.
  - intros p c Hp. rewrite Hr by apply coarse_to_zero. eauto.
  - intros p Hp. rewrite Hr in Hp by apply coarse_to_zero. eauto.
  - intros p s. rewrite Hr by apply coarse_to_slot_zero. eauto.
  - intros p w HU. destruct (I4 p w HU) as (Hw & Hrange & Hfree).
    split; [exact Hw|]. split; [exact Hrange|].
    intros Hlive s Hs. rewrite Hr by apply coarse_to_slot_zero. eauto.
  - intros a' t' Ht'. destruct (decide (a = a')) as [<- | Hne].
    + rewrite lookup_insert_eq in Ht'.
      assert (Ht : t' = replicate (Z.to_nat L1_TABLE_ENTRIES) 0) by congruence.
      rewrite Ht. apply length_replicate.
    + rewrite lookup_insert_ne in Ht' by exact Hne. eauto.
  - rewrite lookup_insert_ne by exact Hnz. exact I6.
Qed.

(** A root without Coarse entries leaves the roots. *)
Lemma inv_del_root C R U (a : Z) :
  shadow_inv_on C R U ->
  (forall t e, R !! a = Some t -> e ∈ t -> l1_is_coarse e = false) ->
  shadow_inv_on C (delete a R) U.
Proof.
  intros HI Hnone. destruct (R !! a) as [t|] eqn:Ha.
  2: { rewrite delete_id by exact Ha. exact HI. }
  destruct HI as [I1 I2 I3 I4 I5 I6].
  assert (Hr : forall f, (forall e, l1_is_coarse e = false -> f e = false) ->
            refs_of f (delete a R) = refs_of f R).
  { intros f Hf. rewrite (refs_of_delete f R a t Ha).
    rewrite (count_l1_none f t); [lia|]. intros e He. apply Hf. eauto. }
  assert (H1 : forall p e, l1_is_coarse e = false -> coarse_to p e = false)
    by (intros; by apply coarse_to_not_coarse).
  assert (H2 : forall p s e, l1_is_coarse e = false -> coarse_to_slot p s e = false)
    by (intros; by apply coarse_to_slot_not_coarse).
  constructor.
  - intros p c Hp. rewrite Hr by apply H1. eauto.
  - intros p Hp. rewrite Hr in Hp by apply H1. eauto.
  - intros p s. rewrite Hr by apply H2. eauto.
  - intros p w HU. destruct (I4 p w HU) as (Hw & Hrange & Hfree).
    split; [exact Hw|]. split; [exact Hrange|].
    intros Hlive s Hs. rewrite Hr by apply H2. eauto.
  - intros a' t' Ht'. apply lookup_delete_Some in Ht' as [_ Ht']. eauto.
  - apply lookup_delete_None. auto.
Qed.

Lemma inv_reset_unused C R U : shadow_inv_on C R U -> shadow_inv_on C R None.
Proof.
  intros [I1 I2 I3 I4 I5 I6]. constructor; try assumption. discriminate.
Qed.

Lemma inv_empty : shadow_inv_on ∅ ∅ None.
Proof.
  constructor.
  - intros p c Hp. rewrite lookup_empty in Hp. discriminate.
  - intros p Hp. rewrite refs_of_empty in Hp. lia.
  - intros p s. rewrite refs_of_empty. lia.
  - discriminate.
  - intros a t Ha. rewrite lookup_empty in Ha. discriminate.
  - apply lookup_empty.
Qed.

End InvFacts.

(** ** What each call does to the counts, the roots and the pointer *)

Lemma bind_Ret_inv {A B : Type} (m : outcome A) (k : A -> outcome B) (r : B) :
  m ≫= k = Ret r -> exists a, m = Ret a /\ k a = Ret r.
Proof. destruct m as [a| |]; [eauto | discriminate | discriminate]. Qed.

(** Splits a hypothesis [m ≫= k = Ret r] into the run of [m] and of [k]. *)
Ltac bind_inv H :=
  let x := fresh "a" in
  let E := fresh "E" in
  apply bind_Ret_inv in H as (x & E & H); cbv beta in H.

Section ShadowInv.
Context `{!KvmHost}.

Lemma read_l1_Ret (v : kvm_vcpu) (a i e : Z) :
  read_l1 v a i = Ret e ->
  exists t, pgds v !! a = Some t /\ 0 <= i /\ t !! Z.to_nat i = Some e.
Proof.
  unfold read_l1. intros Hr.
  destruct (pgds v !! a) as [t|]; [|discriminate].
  destruct (i <? 0) eqn:Hi; [discriminate|].
  destruct (t !! Z.to_nat i) as [e'|] eqn:He; [|discriminate].
  exists t. split; [reflexivity|]. split; [lia|]. congruence.
Qed.

Lemma write_l1_Ret (v : kvm_vcpu) (a i e : Z) (v' : kvm_vcpu) :
  write_l1 v a i e = Ret v' ->
  exists t, pgds v !! a = Some t
            /\ v' = set_pgds (<[a := <[Z.to_nat i := e]> t]> (pgds v)) v.
Proof.
  unfold write_l1. intros Hw.
  destruct (pgds v !! a) as [t|]; [|discriminate].
  destruct ((i <? 0) || (Z.of_nat (length t) <=? i)); [discriminate|].
  exists t. split; [reflexivity|]. congruence.
Qed.

Lemma write_l2_frame (v : kvm_vcpu) (ptr : l2_ptr) (e : Z) (v' : kvm_vcpu) :
  write_l2 v ptr e = Ret v' ->
  pgds v' = pgds v /\ l2_unused_pt v' = l2_unused_pt v
  /\ page_private <$> pages v' = page_private <$> pages v.
Proof.
  unfold write_l2. intros Hw.
  destruct (pages v !! ptr.1) as [pg|] eqn:Hpg; [|discriminate].
  destruct ((ptr.2 <? 0) || _); [discriminate|].
  injection Hw as <-. cbn. split; [reflexivity|]. split; [reflexivity|].
  rewrite fmap_insert. cbn. apply insert_id.
  rewrite lookup_fmap, Hpg. reflexivity.
Qed.

Lemma release_l2_shadow_entry_frame (v : kvm_vcpu) (d pte g : Z) (v' : kvm_vcpu) :
  release_l2_shadow_entry v d pte g = Ret v' ->
  pgds v' = pgds v /\ pages v' = pages v /\ l2_unused_pt v' = l2_unused_pt v.
Proof.
  unfold release_l2_shadow_entry. intros Hr.
  destruct (Z.land pte L2_TYPE_MASK) as [|[[]|[]|]|];
    try discriminate; try (injection Hr as <-; auto);
    bind_inv Hr; injection Hr as <-; auto.
Qed.

Lemma free_l2_shadow_loop_frame (ix : list Z) (v : kvm_vcpu) (e g : Z)
    (ptr : l2_ptr) (v' : kvm_vcpu) :
  free_l2_shadow_loop v e g ptr ix = Ret v' ->
  pgds v' = pgds v /\ pages v' = pages v /\ l2_unused_pt v' = l2_unused_pt v.
Proof.
  revert v ptr. induction ix as [|i ix IH]; intros v ptr Hl; simpl in Hl.
  - injection Hl as <-. auto.
  - bind_inv Hl. bind_inv Hl.
    apply release_l2_shadow_entry_frame in E0 as (Hg & Hp & Hu).
    apply IH in Hl as (Hg' & Hp' & Hu'). split; [|split]; congruence.
Qed.

Lemma free_l2_shadow_Ret (v : kvm_vcpu) (e g : Z) (v' : kvm_vcpu) :
  free_l2_shadow v e g = Ret v' ->
  pgds v' = pgds v /\ l2_unused_pt v' = l2_unused_pt v
  /\ exists c, (page_private <$> pages v) !! l1_frame e = Some c
       /\ page_private <$> pages v'
          = if c - 1 =? 0 then delete (l1_frame e) (page_private <$> pages v)
            else <[l1_frame e := c - 1]> (page_private <$> pages v).
Proof.
  unfold free_l2_shadow. intros Hf. bind_inv Hf.
  apply free_l2_shadow_loop_frame in E as (Hg & Hp & Hu).
  fold (l1_frame e) in Hf. rewrite Hp in Hf.
  destruct (pages v !! l1_frame e) as [pg|] eqn:Hpg; [|discriminate].
  destruct (page_private pg =? 0); [discriminate|].
  assert (Hc : (page_private <$> pages v) !! l1_frame e = Some (page_private pg))
    by (rewrite lookup_fmap, Hpg; reflexivity).
  destruct (page_private pg - 1 =? 0) eqn:Hlast; injection Hf as <-; cbn;
    (split; [exact Hg|]); (split; [exact Hu|]);
    exists (page_private pg); (split; [exact Hc|]); rewrite Hlast, ?Hp.
  - apply fmap_delete.
  - rewrite fmap_insert. reflexivity.
Qed.

End ShadowInv.

(** ** The invariant under each call *)

Section OpInv.
Context `{!KvmHost}.

Lemma shadow_inv_frame (v v' : kvm_vcpu) :
  pgds v' = pgds v -> l2_unused_pt v' = l2_unused_pt v ->
  page_private <$> pages v' = page_private <$> pages v ->
  shadow_inv v -> shadow_inv v'.
Proof. unfold shadow_inv. intros -> -> ->. auto. Qed.

Lemma write_l2_inv (v : kvm_vcpu) (ptr : l2_ptr) (e : Z) (v' : kvm_vcpu) :
  shadow_inv v -> write_l2 v ptr e = Ret v' -> shadow_inv v'.
Proof.
  intros HI Hw. apply write_l2_frame in Hw as (Hg & Hu & Hc).
  exact (shadow_inv_frame v v' Hg Hu Hc HI).
Qed.

Lemma type_coarse (e : Z) :
  Z.land e L1_TYPE_MASK = 1 -> l1_is_coarse e = true.
Proof. intros He. unfold l1_is_coarse. rewrite He. reflexivity. Qed.

Lemma type_fault (e : Z) :
  Z.land e L1_TYPE_MASK = 0 -> l1_is_coarse e = false.
Proof. intros He. unfold l1_is_coarse. rewrite He. reflexivity. Qed.

(** Releasing the table behind a Coarse entry and clearing the entry. *)
Lemma drop_entry_inv (v : kvm_vcpu) (a i e g : Z) (v1 v2 : kvm_vcpu) :
  shadow_inv v -> read_l1 v a i = Ret e -> l1_is_coarse e = true ->
  free_l2_shadow v e g = Ret v1 -> write_l1 v1 a i 0 = Ret v2 ->
  shadow_inv v2
  /\ l2_unused_pt v2 = l2_unused_pt v
  /\ exists t, pgds v !! a = Some t
       /\ pgds v2 = <[a := <[Z.to_nat i := 0]> t]> (pgds v).
Proof.
  intros HI Hr Hc Hf Hw.
  apply read_l1_Ret in Hr as (t & Ha & Hi & He).
  apply free_l2_shadow_Ret in Hf as (Hg & Hu & c & Hcnt & Hcnt').
  apply write_l1_Ret in Hw as (t' & Ha' & ->).
  rewrite Hg in Ha' |- *. assert (t' = t) by congruence. subst t'.
  destruct (inv_drop_ref _ _ _ a t (Z.to_nat i) e c HI Ha He Hc Hcnt) as [_ HI'].
  split; [|split; [exact Hu | exists t; split; [exact Ha | reflexivity]]].
  unfold shadow_inv. cbn. rewrite Hcnt', Hu. exact HI'.
Qed.

Lemma unmap_gva_inv (v : kvm_vcpu) (a g r : Z) (v' : kvm_vcpu) :
  shadow_inv v -> unmap_gva v a g = Ret (r, v') -> shadow_inv v'.
Proof.
  intros HI Hu. unfold unmap_gva in Hu. bind_inv Hu.
  destruct (Z.land a0 L1_TYPE_MASK) as [|[[]|[]|]|];
    try (injection Hu as _ <-; exact HI).
  destruct (get_l2_base a0) as [ret [b|]].
  - bind_inv Hu. injection Hu as _ <-. eapply write_l2_inv; eauto.
  - injection Hu as _ <-. exact HI.
Qed.

Lemma unmap_gva_section_inv (v : kvm_vcpu) (a g r : Z) (v' : kvm_vcpu) :
  shadow_inv v -> unmap_gva_section v a g = Ret (r, v') -> shadow_inv v'.
Proof.
  intros HI Hu. unfold unmap_gva_section in Hu. bind_inv Hu.
  destruct (Z.land a0 L1_TYPE_MASK) as [|[[]|[]|]|] eqn:Hty;
    try (injection Hu as _ <-; exact HI).
  bind_inv Hu. bind_inv Hu. injection Hu as _ <-.
  eapply drop_entry_inv; eauto using type_coarse.
Qed.

(** What [alloc_l2_shadow] hands out and how it leaves the allocator. *)
Lemma alloc_l2_shadow_Ret (v : kvm_vcpu) (r : Z + l2_ptr) (v' : kvm_vcpu) :
  alloc_l2_shadow v = Ret (r, v') ->
  (r = inl (- ENOMEM) /\ v' = v)
  \/ exists p w, r = inr (p, w) /\ pgds v' = pgds v
       /\ l2_unused_pt v'
          = (if ((w + 256) * 4) mod 4096 =? 0 then None else Some (p, w + 256))
       /\ ((l2_unused_pt v = None /\ w = 0 /\ get_free_page v = Some p
            /\ page_private <$> pages v' = <[p := 1]> (page_private <$> pages v))
           \/ (l2_unused_pt v = Some (p, w)
               /\ exists c, (page_private <$> pages v) !! p = Some c
                    /\ page_private <$> pages v'
                       = <[p := c + 1]> (page_private <$> pages v))).
Proof.
  unfold alloc_l2_shadow. intros Ha.
  destruct (l2_unused_pt v) as [[p w]|] eqn:HU.
  - cbn in Ha. destruct (pages v !! p) as [pg|] eqn:Hpg; [|discriminate].
    injection Ha as <- <-. right. exists p, w. cbn.
    split; [reflexivity|]. split; [reflexivity|]. split; [reflexivity|].
    right. split; [reflexivity|]. exists (page_private pg).
    rewrite lookup_fmap, Hpg, fmap_insert. auto.
  - destruct (get_free_page v) as [p|] eqn:Hfree.
    + cbn in Ha. rewrite lookup_insert_eq in Ha. injection Ha as <- <-.
      right. exists p, 0. cbn.
      split; [reflexivity|]. split; [reflexivity|]. split; [reflexivity|].
      left. split; [reflexivity|]. split; [reflexivity|]. split; [reflexivity|].
      rewrite insert_insert_eq, fmap_insert. reflexivity.
    + injection Ha as <- <-. left. auto.
Qed.

Lemma __map_gva_to_pfn_inv (v : kvm_vcpu) (a gva pfn domain ap apx xn r : Z)
    (v' : kvm_vcpu) :
  host_allocator_ok -> shadow_inv v ->
  __map_gva_to_pfn v a gva pfn domain ap apx xn = Ret (r, v') ->
  shadow_inv v'.
Proof.
  intros [Hpage _] HI Hm. unfold __map_gva_to_pfn in Hm.
  destruct (special_domain_check v gva domain ap apx) as [[dom ap'] apx'].
  bind_inv Hm. rename a0 into e0. pose proof E as Hread.
  apply read_l1_Ret in E as (t & Ha & Hi & He).
  bind_inv Hm. destruct a0 as [[ret l2b] v1].
  assert (HI1 : shadow_inv v1).
  { destruct (Z.land e0 L1_TYPE_MASK) as [|[[]|[]|]|] eqn:Hty;
      try (injection E as _ _ <-; exact HI).
    - (* Fault: a table is allocated and the entry made Coarse *)
      bind_inv E. destruct a0 as [res v0].
      apply alloc_l2_shadow_Ret in E0
        as [[-> ->] | (p & w & -> & Hg & Hu & Hcase)].
      + injection E as _ _ <-. exact HI.
      + bind_inv E. apply write_l1_Ret in E0 as (t' & Ha' & Hv2).
        assert (Hv1 : v1 = a0) by congruence. subst v1 a0. clear E.
        rewrite Hg in Ha' |- *. assert (t' = t) by congruence. subst t'.
        unfold shadow_inv. cbn. rewrite Hu.
        pose proof (type_fault e0 Hty) as Hc0.
        destruct Hcase as [(HU & -> & Hfree & ->) | (HU & c & Hc & ->)].
        * destruct (Hpage v p Hfree) as [Hnew Hrange].
          destruct (new_coarse_entry p 0 dom Hrange ltac:(lia))
            as (Hco & Hfr & Hsl & _).
          cbn in Hco, Hfr, Hsl |- *.
          unfold shadow_inv in HI. rewrite HU in HI.
          eapply (inv_add_ref_fresh _ _ a t (Z.to_nat (Z.shiftr gva 20)) e0);
            eauto.
          rewrite lookup_fmap, Hnew. reflexivity.
        * unfold shadow_inv in HI. rewrite HU in HI.
          destruct (inv_unused _ _ _ HI p w eq_refl) as (Hw & Hrange & _).
          assert (Hs : exists s, 0 <= s < 4 /\ w = 256 * s).
          { destruct Hw as [-> | [-> | ->]];
              [exists 1 | exists 2 | exists 3]; lia. }
          destruct Hs as (s & Hs & ->).
          destruct (new_coarse_entry p s dom Hrange Hs)
            as (Hco & Hfr & Hsl & _).
          cbn in Hco, Hfr, Hsl |- *.
          eapply (inv_add_ref_next _ _ a t (Z.to_nat (Z.shiftr gva 20)) e0 _ p
                    (256 * s) s c); eauto.
    - (* Coarse: the domain field is rewritten *)
      bind_inv E. apply write_l1_Ret in E0 as (t' & Ha' & Hv1).
      assert (t' = t) by congruence. subst t'.
      destruct (get_l2_base _) as [ret' b'] in E.
      assert (v1 = a0) by congruence. subst v1 a0. clear E.
      destruct (domain_update e0 dom) as (Hc & Hf & Hs & _).
      unfold shadow_inv. cbn.
      eapply inv_same_ref; eauto. }
  destruct l2b as [b|].
  - bind_inv Hm. injection Hm as _ <-. eapply write_l2_inv; eauto.
  - injection Hm as _ <-. exact HI1.
Qed.

Lemma map_gva_to_pfn_inv (v : kvm_vcpu) (a gva pfn domain priv_ap user_ap exec r : Z)
    (v' : kvm_vcpu) :
  host_allocator_ok -> shadow_inv v ->
  map_gva_to_pfn v a gva pfn domain priv_ap user_ap exec = Ret (r, v') ->
  shadow_inv v'.
Proof.
  intros Hok HI Hm. unfold map_gva_to_pfn in Hm.
  destruct ((priv_ap =? KVM_AP_NONE) && negb (user_ap =? KVM_AP_NONE));
    [injection Hm as _ <-; exact HI|].
  destruct (if kvm_mmu_xp v then _ else _);
    [injection Hm as _ <-; exact HI|].
  destruct (calc_aps priv_ap user_ap) as [calc_ap apx].
  eapply __map_gva_to_pfn_inv; eauto.
Qed.


Lemma elem_of_upto (n j : Z) : 0 <= j < n -> j ∈ upto n.
Proof.
  intros Hj. unfold upto. apply list_elem_of_In, in_map_iff.
  exists (Z.to_nat j). split; [lia|]. apply in_seq. lia.
Qed.

(** The three ways a round of the loop of [__free_l1_shadow_children]
    goes. *)
Lemma free_children_round_fault (v : kvm_vcpu) (a i e : Z) (ix : list Z) :
  read_l1 v a i = Ret e -> Z.land e L1_TYPE_MASK = L1_TYPE_FAULT ->
  free_l1_shadow_children_loop v a (i :: ix)
  = free_l1_shadow_children_loop v a ix.
Proof.
  intros Hr Hf. cbn [free_l1_shadow_children_loop]. rewrite Hr.
  cbn [mbind outcome_bind]. rewrite Hf. reflexivity.
Qed.

Lemma free_children_round_coarse (v : kvm_vcpu) (a i e : Z) (ix : list Z) :
  read_l1 v a i = Ret e -> l1_is_coarse e = true ->
  free_l1_shadow_children_loop v a (i :: ix)
  = (v1 ← free_l2_shadow v e (u32 (Z.shiftl i 20));
     v2 ← write_l1 v1 a i 0;
     free_l1_shadow_children_loop v2 a ix).
Proof.
  intros Hr Hc. cbn [free_l1_shadow_children_loop]. rewrite Hr.
  cbn [mbind outcome_bind]. unfold l1_is_coarse in Hc.
  assert (Hf : (Z.land e L1_TYPE_MASK =? L1_TYPE_FAULT) = false).
  { apply Z.eqb_eq in Hc. rewrite Hc. reflexivity. }
  rewrite Hf, Hc. reflexivity.
Qed.

Lemma free_children_round_other (v : kvm_vcpu) (a i e : Z) (ix : list Z) :
  read_l1 v a i = Ret e -> Z.land e L1_TYPE_MASK <> L1_TYPE_FAULT ->
  Z.land e L1_TYPE_MASK <> L1_TYPE_COARSE ->
  free_l1_shadow_children_loop v a (i :: ix) = Halt.
Proof.
  intros Hr Hf Hc. cbn [free_l1_shadow_children_loop]. rewrite Hr.
  cbn [mbind outcome_bind].
  apply Z.eqb_neq in Hf, Hc. rewrite Hf, Hc. reflexivity.
Qed.

Lemma free_children_round_read (v : kvm_vcpu) (a i : Z) (ix : list Z)
    (v' : kvm_vcpu) :
  free_l1_shadow_children_loop v a (i :: ix) = Ret v' ->
  exists e, read_l1 v a i = Ret e.
Proof.
  cbn [free_l1_shadow_children_loop]. intros Hl.
  destruct (read_l1 v a i) as [e| |]; [eauto | discriminate | discriminate].
Qed.

(** The loop of [__free_l1_shadow_children]: the invariant is kept, a
    Coarse entry left in the root was there before, and no entry of a
    visited index is left Coarse. *)
Lemma free_l1_shadow_children_loop_inv (ix : list Z) (v : kvm_vcpu) (a : Z)
    (v' : kvm_vcpu) :
  shadow_inv v -> free_l1_shadow_children_loop v a ix = Ret v' ->
  shadow_inv v'
  /\ forall t', pgds v' !! a = Some t' ->
       (forall (j : nat) e', t' !! j = Some e' -> l1_is_coarse e' = true ->
          exists t, pgds v !! a = Some t /\ t !! j = Some e')
       /\ (forall i e', i ∈ ix -> t' !! Z.to_nat i = Some e' ->
           l1_is_coarse e' = false).
Proof.
  revert v. induction ix as [|i ix IH]; intros v HI Hl.
  - injection Hl as <-. split; [exact HI|]. intros t' Ht'. split.
    + intros j e' Hj _. eauto.
    + intros i e' Hi. inversion Hi.
  - destruct (free_children_round_read v a i ix v' Hl) as [e Hread].
    pose proof Hread as E. apply read_l1_Ret in E as (t & Ha & Hi & He).
    destruct (Z.eq_dec (Z.land e L1_TYPE_MASK) L1_TYPE_FAULT) as [Hfault|Hfault];
      [|destruct (Z.eq_dec (Z.land e L1_TYPE_MASK) L1_TYPE_COARSE)
          as [Hcoarse|Hcoarse]].
    + rewrite (free_children_round_fault v a i e ix Hread Hfault) in Hl.
      destruct (IH v HI Hl) as [HI' Hpost]. split; [exact HI'|].
      intros t' Ht'. destruct (Hpost t' Ht') as [P1 P2]. split; [exact P1|].
      intros i' e' Hi' He'. apply elem_of_cons in Hi' as [-> | Hi'];
        [|eauto].
      destruct (l1_is_coarse e') eqn:Hc; [|reflexivity].
      destruct (P1 _ _ He' Hc) as (t0 & Ha0 & He0).
      assert (e' = e) by congruence. subst e'.
      unfold l1_is_coarse in Hc. rewrite Hfault in Hc. discriminate.
    + apply type_coarse in Hcoarse.
      rewrite (free_children_round_coarse v a i e ix Hread Hcoarse) in Hl.
      bind_inv Hl. bind_inv Hl. rename a0 into v1, a1 into v2.
      destruct (drop_entry_inv v a i e _ v1 v2 HI Hread Hcoarse E E0)
        as (HI2 & _ & t0 & Ha0 & Hg2).
      assert (t0 = t) by congruence. subst t0.
      destruct (IH v2 HI2 Hl) as [HI' Hpost]. split; [exact HI'|].
      intros t' Ht'. destruct (Hpost t' Ht') as [P1 P2].
      assert (Hcleared : forall e', <[Z.to_nat i := 0]> t !! Z.to_nat i = Some e' ->
                l1_is_coarse e' = false).
      { intros e' He'. apply list_lookup_insert_Some in He' as [(_ & <- & _) | [? _]];
          [reflexivity | congruence]. }
      split.
      * intros j e' Hj Hc. destruct (P1 j e' Hj Hc) as (t2 & Ha2 & He2).
        rewrite Hg2, lookup_insert_eq in Ha2. injection Ha2 as <-.
        exists t. split; [exact Ha|].
        destruct (decide (Z.to_nat i = j)) as [<- | Hne].
        -- rewrite (Hcleared e' He2) in Hc. discriminate.
        -- rewrite list_lookup_insert_ne in He2 by exact Hne. exact He2.
      * intros i' e' Hi' He'. apply elem_of_cons in Hi' as [-> | Hi'];
          [|eauto].
        destruct (l1_is_coarse e') eqn:Hc; [|reflexivity].
        destruct (P1 _ _ He' Hc) as (t2 & Ha2 & He2).
        rewrite Hg2, lookup_insert_eq in Ha2. injection Ha2 as <-.
        rewrite (Hcleared e' He2) in Hc. discriminate.
    + rewrite (free_children_round_other v a i e ix Hread Hfault Hcoarse) in Hl.
      discriminate.
Qed.

Lemma __free_l1_shadow_children_eq (v : kvm_vcpu) (a : Z) :
  __free_l1_shadow_children v a
  = free_l1_shadow_children_loop v a (upto L1_TABLE_ENTRIES).
Proof. reflexivity. Qed.

(** After [free_l1_shadow_children] the root has no Coarse entry left. *)
Lemma free_l1_shadow_children_inv (v : kvm_vcpu) (a : Z) (v' : kvm_vcpu) :
  shadow_inv v -> free_l1_shadow_children v a = Ret v' ->
  shadow_inv v'
  /\ forall t e, pgds v' !! a = Some t -> e ∈ t -> l1_is_coarse e = false.
Proof.
  intros HI Hf. unfold free_l1_shadow_children in Hf.
  destruct (a =? 0) eqn:Hnull.
  - injection Hf as <-. split; [exact HI|]. intros t e Ht _.
    apply Z.eqb_eq in Hnull. rewrite Hnull in Ht.
    rewrite (inv_null _ _ _ HI) in Ht. discriminate.
  - bind_inv Hf. rename a0 into v1. injection Hf as <-.
    rewrite __free_l1_shadow_children_eq in E.
    destruct (free_l1_shadow_children_loop_inv _ v a v1 HI E) as [HI1 Hpost].
    split.
    + apply (inv_reset_unused _ _ _ HI1).
    + intros t e Ht He. change (pgds v1 !! a = Some t) in Ht.
      destruct (Hpost t Ht) as [_ P2].
      apply list_elem_of_lookup in He as [j Hj].
      pose proof (lookup_lt_Some _ _ _ Hj) as Hlt.
      rewrite (inv_length _ _ _ HI1 _ _ Ht) in Hlt.
      apply (P2 (Z.of_nat j)).
      * apply elem_of_upto. change L1_TABLE_ENTRIES with 4096. lia.
      * rewrite Nat2Z.id. exact Hj.
Qed.

Lemma kvm_free_l1_shadow_inv (v : kvm_vcpu) (shadow : kvm_shadow_pgtable)
    (v' : kvm_vcpu) :
  shadow_inv v -> kvm_free_l1_shadow v shadow = Ret v' -> shadow_inv v'.
Proof.
  intros HI Hf. unfold kvm_free_l1_shadow in Hf. bind_inv Hf.
  injection Hf as <-. rename a into v1.
  destruct (free_l1_shadow_children_inv v (pgd shadow) v1 HI E) as [HI1 Hnone].
  apply (inv_del_root _ _ _ (pgd shadow) HI1 Hnone).
Qed.

Lemma kvm_alloc_l1_shadow_inv (v : kvm_vcpu) (ttbr : Z) :
  host_allocator_ok -> shadow_inv v ->
  shadow_inv (kvm_alloc_l1_shadow v ttbr).2.
Proof.
  intros [_ Hroot] HI. unfold kvm_alloc_l1_shadow.
  destruct (negb (kmalloc_ok v)); [exact HI|].
  destruct (get_free_pages2 v) as [a|] eqn:Hfree; [|exact HI].
  destruct (Hroot v a Hfree) as [Hnew Hnz].
  unfold shadow_inv. cbn. apply inv_new_root; assumption.
Qed.

Lemma step_inv (v : kvm_vcpu) (op : shadow_op) (v' : kvm_vcpu) :
  host_allocator_ok -> shadow_inv v -> step v op = Ret v' -> shadow_inv v'.
Proof.
  intros Hok HI Hs. destruct op; simpl in Hs.
  - injection Hs as <-. by apply kvm_alloc_l1_shadow_inv.
  - bind_inv Hs. injection Hs as <-. destruct a as [r v1].
    eapply map_gva_to_pfn_inv; eauto.
  - bind_inv Hs. injection Hs as <-. destruct a as [r v1].
    eapply unmap_gva_inv; eauto.
  - bind_inv Hs. injection Hs as <-. destruct a as [r v1].
    eapply unmap_gva_section_inv; eauto.
  - eapply kvm_free_l1_shadow_inv; eauto.
Qed.

Lemma run_inv (ops : list shadow_op) (v v' : kvm_vcpu) :
  host_allocator_ok -> shadow_inv v -> run v ops = Ret v' -> shadow_inv v'.
Proof.
  intros Hok. revert v. induction ops as [|op ops IH]; intros v HI Hr;
    simpl in Hr.
  - injection Hr as <-. exact HI.
  - bind_inv Hr. eapply IH; [|exact Hr]. eapply step_inv; eauto.
Qed.

Lemma no_shadow_inv (v : kvm_vcpu) : no_shadow v -> shadow_inv v.
Proof.
  intros (Hg & Hp & Hu). unfold shadow_inv. rewrite Hg, Hp, Hu, fmap_empty.
  apply inv_empty.
Qed.


End OpInv.

(** ** The use count of a frame is the number of its tables in use *)

Section LiveSubtables.

Lemma b2z_slot_split (p e : Z) :
  b2z (coarse_to p e)
  = b2z (coarse_to_slot p 0 e) + b2z (coarse_to_slot p 1 e)
    + b2z (coarse_to_slot p 2 e) + b2z (coarse_to_slot p 3 e).
Proof.
  unfold coarse_to_slot. destruct (coarse_to p e); [|reflexivity].
  pose proof (l1_slot_range e) as Hr.
  assert (Hs : l1_slot e = 0 \/ l1_slot e = 1 \/ l1_slot e = 2 \/ l1_slot e = 3)
    by lia.
  destruct Hs as [-> | [-> | [-> | ->]]]; reflexivity.
Qed.

Lemma count_slot_split (p : Z) (t : list Z) :
  count_l1 (coarse_to p) t
  = count_l1 (coarse_to_slot p 0) t + count_l1 (coarse_to_slot p 1) t
    + count_l1 (coarse_to_slot p 2) t + count_l1 (coarse_to_slot p 3) t.
Proof.
  induction t as [|e t IH]; simpl; [reflexivity|].
  rewrite IH, (b2z_slot_split p e). lia.
Qed.

Lemma refs_slot_split (p : Z) (R : gmap Z (list Z)) :
  refs_of (coarse_to p) R
  = refs_of (coarse_to_slot p 0) R + refs_of (coarse_to_slot p 1) R
    + refs_of (coarse_to_slot p 2) R + refs_of (coarse_to_slot p 3) R.
Proof.
  induction R as [|a t R Ha _ IH] using map_first_key_ind.
  - rewrite !refs_of_empty. reflexivity.
  - rewrite !refs_of_insert by exact Ha. rewrite IH, (count_slot_split p t). lia.
Qed.

Lemma live_subtables_refs (v : kvm_vcpu) (p : Z) :
  shadow_inv v -> live_subtables v p = refs_of (coarse_to p) (pgds v).
Proof.
  intros HI. unfold live_subtables, slot_in_use. cbn [count_l1].
  rewrite refs_slot_split.
  assert (Hb : forall s, b2z (0 <? refs_of (coarse_to_slot p s) (pgds v))
                         = refs_of (coarse_to_slot p s) (pgds v)).
  { intros s. pose proof (inv_slot _ _ _ HI p s).
    pose proof (refs_of_nonneg (coarse_to_slot p s) (pgds v)).
    destruct (0 <? _) eqn:Hpos; simpl; lia. }
  rewrite !Hb. lia.
Qed.

End LiveSubtables.

(** C2, as the code has it.  After any run of [kvm_alloc_l1_shadow],
    [map_gva_to_pfn], [unmap_gva], [unmap_gva_section] and
    [kvm_free_l1_shadow] that starts without shadow tables and returns, the
    use count ([page_private]) of every frame the manager holds is the
    number of its four 1 KiB tables that a Coarse first-level entry of some
    root points at. *)
Theorem use_count_is_live_subtables `{!KvmHost} (ops : list shadow_op)
    (v v' : kvm_vcpu) (p : Z) (pg : page) :
  host_allocator_ok -> no_shadow v -> run v ops = Ret v' ->
  pages v' !! p = Some pg ->
  page_private pg = live_subtables v' p.
Proof.
  intros Hok Hv Hrun Hp.
  assert (HI : shadow_inv v') by (eapply run_inv; eauto using no_shadow_inv).
  rewrite (live_subtables_refs v' p HI).
  apply (inv_count _ _ _ HI). rewrite lookup_fmap, Hp. reflexivity.
Qed.

(** The allocator of the concrete host hands out fresh frames and roots. *)
Lemma max_key_spec {A : Type} (base : Z) (m : gmap Z A) :
  base <= max_key base m /\ forall k x, m !! k = Some x -> k <= max_key base m.
Proof.
  unfold max_key.
  apply (map_fold_weak_ind
           (fun r (m : gmap Z A) => base <= r /\ forall k x, m !! k = Some x -> k <= r)).
  - split; [lia|]. intros k x Hk. rewrite lookup_empty in Hk. discriminate.
  - intros i x m' r Hi [Hb Hle]. split; [lia|].
    intros k y Hk. destruct (decide (i = k)) as [<- | Hne]; [lia|].
    rewrite lookup_insert_ne in Hk by exact Hne. specialize (Hle k y Hk). lia.
Qed.

Lemma max_key_fresh {A : Type} (base d : Z) (m : gmap Z A) :
  0 < d -> m !! (max_key base m + d) = None.
Proof.
  intros Hd. destruct (m !! (max_key base m + d)) as [x|] eqn:Hk; [|reflexivity].
  destruct (max_key_spec base m) as [_ Hle]. specialize (Hle _ _ Hk). lia.
Qed.

Lemma arm_host_allocator_ok : @host_allocator_ok arm_host.
Proof.
  split.
  - intros v p. cbn. destruct (_ <? _) eqn:Hlt; [|discriminate].
    intros Hp. injection Hp as <-. split.
    + apply max_key_fresh. lia.
    + destruct (max_key_spec 0xff (pages v)) as [Hb _]. lia.
  - intros v a. cbn. destruct (_ <? _) eqn:Hlt; [|discriminate].
    intros Ha. injection Ha as <-. split.
    + apply max_key_fresh. lia.
    + destruct (max_key_spec 0xc0000000 (pgds v)) as [Hb _]. lia.
Qed.

(** The theorem of C2 on a run with two roots that share a frame. *)
Lemma use_count_is_live_subtables_witness :
  exists v', run (vcpu0 XP_ON 0 ∅) ops_two_roots = Ret v'
    /\ forall p pg, pages v' !! p = Some pg ->
                    page_private pg = live_subtables v' p.
Proof.
  eexists. split; [vm_compute; reflexivity|].
  intros p pg. 
  apply (use_count_is_live_subtables ops_two_roots (vcpu0 XP_ON 0 ∅)).
  - exact arm_host_allocator_ok.
  - repeat split.
  - vm_compute. reflexivity.
Defined.

(** C2 as stated fails once [unmap_gva] has emptied a table: the frame
    keeps its use count of 1 while none of its four tables holds a
    non-Fault entry; the table is still in use. *)
Lemma use_count_not_populated_subtables :
  frame_counts (run (vcpu0 XP_ON 0 ∅) ops_map_unmap) 0x100 = Some (1, 0, 1).
Proof. vm_compute. reflexivity. Qed.

(** [unmap_gva_section] frees the frame and leaves [l2_unused_pt]
    pointing into it: the next install that needs a table goes through the
    freed frame.  Runs of this kind are the ones that do not return in the
    sense of [run]. *)
Lemma unused_pt_dangles_after_unmap_section :
  run (vcpu0 XP_ON 0 ∅) ops_dangling = Wild.
Proof. vm_compute. reflexivity. Qed.

(** And after [unmap_gva_section], which leaves the released entries in
    the frame: one table in use, two still holding non-Fault words. *)
Lemma use_count_ignores_stale_entries :
  frame_counts (run (vcpu0 XP_ON 0 ∅) ops_stale) 0x100 = Some (1, 2, 1).
Proof. vm_compute. reflexivity. Qed.

(** ** Entries the manager does not expect *)

Section Unexpected.
Context `{!KvmHost}.

(** The loop of [__free_l1_shadow_children] returns only when every entry
    it visits is Fault or Coarse. *)
Lemma free_children_loop_types (ix : list Z) (v : kvm_vcpu) (a : Z)
    (v' : kvm_vcpu) :
  free_l1_shadow_children_loop v a ix = Ret v' ->
  forall i t e, i ∈ ix -> 0 <= i -> pgds v !! a = Some t ->
    t !! Z.to_nat i = Some e ->
    Z.land e L1_TYPE_MASK = L1_TYPE_FAULT
    \/ Z.land e L1_TYPE_MASK = L1_TYPE_COARSE.
Proof.
  revert v. induction ix as [|j ix IH]; intros v Hl i t e Hi Hpos Ha He.
  - inversion Hi.
  - destruct (free_children_round_read v a j ix v' Hl) as [ej Hread].
    pose proof Hread as E. apply read_l1_Ret in E as (tj & Haj & Hj & Hej).
    assert (tj = t) by congruence. subst tj.
    destruct (Z.eq_dec (Z.land ej L1_TYPE_MASK) L1_TYPE_FAULT) as [Hfault|Hfault];
      [|destruct (Z.eq_dec (Z.land ej L1_TYPE_MASK) L1_TYPE_COARSE)
          as [Hcoarse|Hcoarse]].
    + rewrite (free_children_round_fault v a j ej ix Hread Hfault) in Hl.
      apply elem_of_cons in Hi as [-> | Hi].
      * assert (e = ej) by congruence. subst e. tauto.
      * eapply IH; eauto.
    + pose proof (type_coarse ej Hcoarse) as Hc.
      rewrite (free_children_round_coarse v a j ej ix Hread Hc) in Hl.
      bind_inv Hl. bind_inv Hl. rename a0 into v1, a1 into v2.
      apply free_l2_shadow_Ret in E as (Hg1 & _).
      apply write_l1_Ret in E0 as (t1 & Ha1 & ->).
      rewrite Hg1 in Ha1. assert (t1 = t) by congruence. subst t1.
      destruct (decide (i = j)) as [-> | Hne].
      * assert (e = ej) by congruence. subst e. tauto.
      * apply elem_of_cons in Hi as [-> | Hi]; [congruence|].
        apply (IH _ Hl i (<[Z.to_nat j := 0]> t) e Hi Hpos).
        -- cbn. rewrite Hg1. apply lookup_insert_eq.
        -- rewrite list_lookup_insert_ne by lia. exact He.
    + rewrite (free_children_round_other v a j ej ix Hread Hfault Hcoarse) in Hl.
      discriminate.
Qed.

(** C3, as the code has it.  On a first-level entry that is neither Fault
    nor Coarse, installing and the two unmap calls return [-EFAULT] with
    every table as it was, while freeing the children of a root does not
    return; releasing a large-page second-level descriptor, and walking a
    guest one, stop in [BUG()]. *)
Theorem unexpected_descriptors :
  (forall v a gva e, read_l1 v a (Z.shiftr gva 20) = Ret e ->
     Z.land e L1_TYPE_MASK <> L1_TYPE_FAULT ->
     Z.land e L1_TYPE_MASK <> L1_TYPE_COARSE ->
     (forall pfn domain ap apx xn,
        __map_gva_to_pfn v a gva pfn domain ap apx xn = Ret (- EFAULT, v))
     /\ unmap_gva v a gva = Ret (- EFAULT, v)
     /\ unmap_gva_section v a gva = Ret (- EFAULT, v))
  /\ (forall v a t (i : nat) e, a <> 0 -> pgds v !! a = Some t ->
        t !! i = Some e -> (i < 4096)%nat ->
        Z.land e L1_TYPE_MASK <> L1_TYPE_FAULT ->
        Z.land e L1_TYPE_MASK <> L1_TYPE_COARSE ->
        forall v', free_l1_shadow_children v a <> Ret v')
  /\ (forall v domain pte gva, Z.land pte L2_TYPE_MASK = L2_TYPE_LARGE ->
        release_l2_shadow_entry v domain pte gva = Halt)
  /\ (forall v gva desc gfn domain_type uaccess mi,
        Z.land desc L2_TYPE_MASK = L2_TYPE_LARGE ->
        trans_coarse_entry v gva desc gfn domain_type uaccess mi = Halt
        /\ trans_coarse_entry_xp v gva desc gfn domain_type uaccess mi = Halt).
Proof.
  split; [|split; [|split]].
  - intros v a gva e Hr Hf Hc.
    assert (Hother : forall (A : Type) (x y z : A),
              match Z.land e L1_TYPE_MASK with 0 => x | 1 => y | _ => z end = z).
    { intros A x y z. unfold L1_TYPE_FAULT, L1_TYPE_COARSE in Hf, Hc.
      destruct (Z.land e L1_TYPE_MASK) as [|[[]|[]|]|]; congruence. }
    split; [|split].
    + intros pfn domain ap apx xn. unfold __map_gva_to_pfn.
      destruct (special_domain_check v gva domain ap apx) as [[dom ap'] apx'].
      rewrite Hr. cbn [mbind outcome_bind]. rewrite Hother. reflexivity.
    + unfold unmap_gva. rewrite Hr. cbn [mbind outcome_bind].
      rewrite Hother. reflexivity.
    + unfold unmap_gva_section. rewrite Hr. cbn [mbind outcome_bind].
      rewrite Hother. reflexivity.
  - intros v a t i e Hnz Ha He Hi Hf Hc v' Hfree.
    unfold free_l1_shadow_children in Hfree.
    apply Z.eqb_neq in Hnz. rewrite Hnz in Hfree.
    bind_inv Hfree. rewrite __free_l1_shadow_children_eq in E.
    destruct (free_children_loop_types _ v a a0 E (Z.of_nat i) t e); try tauto.
    + apply elem_of_upto. change L1_TABLE_ENTRIES with 4096. lia.
    + lia.
    + rewrite Nat2Z.id. exact He.
  - intros v domain pte gva Hl. unfold release_l2_shadow_entry.
    rewrite Hl. reflexivity.
  - intros v gva desc gfn dt ua mi Hl.
    unfold trans_coarse_entry, trans_coarse_entry_xp. rewrite Hl. split; reflexivity.
Qed.

End Unexpected.

(** ** Calls that change nothing *)

Section Idempotent.
Context `{!KvmHost}.

Lemma set_pages_id (v : kvm_vcpu) : set_pages (pages v) v = v.
Proof. destruct v. reflexivity. Qed.

Lemma write_l2_same (v : kvm_vcpu) (ptr : l2_ptr) :
  read_l2 v ptr = Ret 0 -> write_l2 v ptr 0 = Ret v.
Proof.
  unfold read_l2, write_l2. intros Hr.
  destruct (pages v !! ptr.1) as [pg|] eqn:Hpg; [|discriminate].
  destruct (ptr.2 <? 0) eqn:Hneg; [discriminate|].
  destruct (page_words pg !! Z.to_nat ptr.2) as [w|] eqn:Hw; [|discriminate].
  injection Hr as ->.
  pose proof (lookup_lt_Some _ _ _ Hw) as Hlt.
  assert (Hin : (Z.of_nat (length (page_words pg)) <=? ptr.2) = false) by lia.
  rewrite Hin. cbn [orb]. rewrite (list_insert_id _ _ _ Hw).
  assert (Hpg' : Page (page_private pg) (page_words pg) = pg) by (destruct pg; reflexivity).
  rewrite Hpg', (insert_id _ _ _ Hpg), set_pages_id. reflexivity.
Qed.

(** C10. [unmap_gva] on an address that has no mapping, because its
    first-level entry is Fault or because its second-level entry is Fault,
    returns 0 and leaves the whole state as it was; so does
    [kvm_switch_host_vectors] when asked for the vector base already in
    use. *)
Theorem unmap_and_switch_idempotent :
  (forall v a gva e, read_l1 v a (Z.shiftr gva 20) = Ret e ->
     Z.land e L1_TYPE_MASK = L1_TYPE_FAULT ->
     unmap_gva v a gva = Ret (0, v))
  /\ (forall v a gva e w, l2_words_ok v ->
        read_l1 v a (Z.shiftr gva 20) = Ret e ->
        Z.land e L1_TYPE_MASK = L1_TYPE_COARSE ->
        pfn_valid (Z.shiftr e PAGE_SHIFT) = true ->
        read_l2 v (shadow_l2_ptr e gva) = Ret w ->
        Z.land w L2_TYPE_MASK = L2_TYPE_FAULT ->
        unmap_gva v a gva = Ret (0, v))
  /\ (forall v high, high = host_vectors_high v ->
        kvm_switch_host_vectors v high = Ret (0, v)).
Proof.
  split; [|split].
  - intros v a gva e Hr Hf. unfold unmap_gva. rewrite Hr.
    cbn [mbind outcome_bind]. rewrite Hf. reflexivity.
  - intros v a gva e w Hok Hr Hc Hvalid Hw Hfault.
    assert (Hz : w = 0).
    { unfold read_l2 in Hw.
      destruct (pages v !! (shadow_l2_ptr e gva).1) as [pg|] eqn:Hpg; [|discriminate].
      destruct ((shadow_l2_ptr e gva).2 <? 0); [discriminate|].
      destruct (page_words pg !! _) as [w'|] eqn:Hw'; [|discriminate].
      injection Hw as ->.
      destruct (Hok _ _ w Hpg) as [Hz | Hnz]; [|exact Hz|contradiction].
      eapply list_elem_of_lookup_2. exact Hw'. }
    subst w. unfold unmap_gva. rewrite Hr. cbn [mbind outcome_bind].
    rewrite Hc. unfold L1_TYPE_COARSE, get_l2_base. rewrite Hvalid.
    cbn [negb fst snd].
    change (Z.shiftr e PAGE_SHIFT,
            Z.shiftr (Z.land e 0xc00) 2 + Z.land (Z.shiftr gva 12) 0xff)
      with (shadow_l2_ptr e gva).
    rewrite (write_l2_same v _ Hw). reflexivity.
  - intros v high ->. unfold kvm_switch_host_vectors.
    rewrite Z.eqb_refl. reflexivity.
Qed.

End Idempotent.

(** ** The words of the second-level frames *)

Section Words.
Context `{!KvmHost}.

Lemma Ret_inj {A : Type} (x y : A) : Ret x = Ret y -> x = y.
Proof. congruence. Qed.

Lemma l2_words_ok_from (v v' : kvm_vcpu) :
  l2_words_ok v ->
  (forall p pg', pages v' !! p = Some pg' ->
     exists pg, pages v !! p = Some pg /\ page_words pg' = page_words pg) ->
  l2_words_ok v'.
Proof.
  intros Hok Hfrom p pg' w Hp Hw.
  destruct (Hfrom p pg' Hp) as (pg & Hpg & Heq). rewrite Heq in Hw. eauto.
Qed.

Lemma l2_words_ok_same_pages (v v' : kvm_vcpu) :
  pages v' = pages v -> l2_words_ok v -> l2_words_ok v'.
Proof. intros Hp Hok p pg w. rewrite Hp. apply Hok. Qed.

Lemma write_l1_pages (v : kvm_vcpu) (a i e : Z) (v' : kvm_vcpu) :
  write_l1 v a i e = Ret v' -> pages v' = pages v.
Proof. intros Hw. apply write_l1_Ret in Hw as (t & _ & ->). reflexivity. Qed.

Lemma write_l2_words (v : kvm_vcpu) (ptr : l2_ptr) (e : Z) (v' : kvm_vcpu) :
  l2_words_ok v -> e = 0 \/ Z.land e L2_TYPE_MASK <> L2_TYPE_FAULT ->
  write_l2 v ptr e = Ret v' -> l2_words_ok v'.
Proof.
  intros Hok He Hw. unfold write_l2 in Hw.
  destruct (pages v !! ptr.1) as [pg|] eqn:Hpg; [|discriminate].
  destruct ((ptr.2 <? 0) || _); [discriminate|].
  injection Hw as <-. intros p pg' w Hp Hin. cbn in Hp.
  destruct (decide (ptr.1 = p)) as [<- | Hne].
  - rewrite lookup_insert_eq in Hp. injection Hp as <-. cbn in Hin.
    apply list_elem_of_lookup in Hin as [j Hj].
    apply list_lookup_insert_Some in Hj as [(_ & <- & _) | [_ Hj]];
      [exact He|].
    apply (Hok _ _ w Hpg). eapply list_elem_of_lookup_2. exact Hj.
  - rewrite lookup_insert_ne in Hp by exact Hne. eauto.
Qed.

Lemma free_l2_shadow_words (v : kvm_vcpu) (e g : Z) (v' : kvm_vcpu) :
  l2_words_ok v -> free_l2_shadow v e g = Ret v' -> l2_words_ok v'.
Proof.
  intros Hok. unfold free_l2_shadow. intros Hf. bind_inv Hf.
  apply free_l2_shadow_loop_frame in E as (_ & Hp & _).
  rewrite Hp in Hf.
  destruct (pages v !! Z.shiftr e PAGE_SHIFT) as [pg|] eqn:Hpg; [|discriminate].
  destruct (page_private pg =? 0); [discriminate|].
  apply (l2_words_ok_from v v' Hok). intros p pg' Hp'.
  destruct (page_private pg - 1 =? 0); injection Hf as <-; cbn in Hp';
    rewrite ?Hp in Hp'.
  - apply lookup_delete_Some in Hp' as [_ Hp']. eauto.
  - destruct (decide (Z.shiftr e PAGE_SHIFT = p)) as [<- | Hne].
    + rewrite lookup_insert_eq in Hp'. injection Hp' as <-. eauto.
    + rewrite lookup_insert_ne in Hp' by exact Hne. eauto.
Qed.

Lemma alloc_l2_shadow_words (v : kvm_vcpu) (r : Z + l2_ptr) (v' : kvm_vcpu) :
  l2_words_ok v -> alloc_l2_shadow v = Ret (r, v') -> l2_words_ok v'.
Proof.
  intros Hok. unfold alloc_l2_shadow. intros Ha.
  destruct (l2_unused_pt v) as [[p w]|] eqn:HU.
  - cbn [fst snd pages set_pages set_l2_unused_pt] in Ha.
    destruct (pages v !! p) as [pg|] eqn:Hpg; [|discriminate].
    injection Ha as _ <-. apply (l2_words_ok_from v _ Hok).
    intros q pg' Hq. cbn [pages set_pages set_l2_unused_pt] in Hq.
    destruct (decide (p = q)) as [<- | Hne].
    + rewrite lookup_insert_eq in Hq. injection Hq as <-. eauto.
    + rewrite lookup_insert_ne in Hq by exact Hne. eauto.
  - destruct (get_free_page v) as [p|] eqn:Hfree.
    + cbn [fst snd pages set_pages set_l2_unused_pt] in Ha.
      rewrite lookup_insert_eq in Ha. apply Ret_inj in Ha.
      apply pair_equal_spec in Ha as [_ <-].
      intros q pg' w Hq Hw. cbn [pages set_pages set_l2_unused_pt] in Hq.
      rewrite insert_insert_eq in Hq.
      destruct (decide (p = q)) as [<- | Hne].
      * rewrite lookup_insert_eq in Hq. apply (inj Some) in Hq. subst pg'.
        cbn [page_words page_private] in Hw.
        left. eapply elem_of_replicate_inv. exact Hw.
      * rewrite lookup_insert_ne in Hq by exact Hne. eauto.
    + injection Ha as _ <-. exact Hok.
Qed.

Lemma __map_gva_to_pfn_words (v : kvm_vcpu) (a gva pfn domain ap apx xn r : Z)
    (v' : kvm_vcpu) :
  l2_words_ok v -> __map_gva_to_pfn v a gva pfn domain ap apx xn = Ret (r, v') ->
  l2_words_ok v'.
Proof.
  intros Hok Hm. unfold __map_gva_to_pfn in Hm.
  destruct (special_domain_check v gva domain ap apx) as [[dom ap'] apx'].
  bind_inv Hm. rename a0 into e0.
  bind_inv Hm. destruct a0 as [[ret l2b] v1].
  assert (Hok1 : l2_words_ok v1).
  { destruct (Z.land e0 L1_TYPE_MASK) as [|[[]|[]|]|] eqn:Hty;
      try (injection E0 as _ _ <-; exact Hok).
    - bind_inv E0. destruct a0 as [res v0].
      apply alloc_l2_shadow_words in E1; [|exact Hok].
      destruct res as [err|b].
      + injection E0 as _ _ <-. exact E1.
      + bind_inv E0. apply write_l1_pages in E2.
        assert (v1 = a0) by congruence. subst v1.
        exact (l2_words_ok_same_pages v0 a0 E2 E1).
    - bind_inv E0. apply write_l1_pages in E1.
      destruct (get_l2_base _) as [ret' b'] in E0.
      assert (v1 = a0) by congruence. subst v1.
      exact (l2_words_ok_same_pages v a0 E1 Hok). }
  destruct l2b as [b|].
  - bind_inv Hm. injection Hm as _ <-.
    eapply write_l2_words; [exact Hok1| |exact E1].
    right. apply l2_descriptor_fields.
    destruct ((Z.land gva PAGE_MASK =? SHARED_PAGE_BASE) || (TASK_SIZE <? gva)); auto.
  - injection Hm as _ <-. exact Hok1.
Qed.

Lemma free_children_loop_words (ix : list Z) (v : kvm_vcpu) (a : Z)
    (v' : kvm_vcpu) :
  l2_words_ok v -> free_l1_shadow_children_loop v a ix = Ret v' ->
  l2_words_ok v'.
Proof.
  revert v. induction ix as [|i ix IH]; intros v Hok Hl.
  - injection Hl as <-. exact Hok.
  - destruct (free_children_round_read v a i ix v' Hl) as [e Hread].
    destruct (Z.eq_dec (Z.land e L1_TYPE_MASK) L1_TYPE_FAULT) as [Hfault|Hfault];
      [|destruct (Z.eq_dec (Z.land e L1_TYPE_MASK) L1_TYPE_COARSE)
          as [Hcoarse|Hcoarse]].
    + rewrite (free_children_round_fault v a i e ix Hread Hfault) in Hl. eauto.
    + pose proof (type_coarse e Hcoarse) as Hc.
      rewrite (free_children_round_coarse v a i e ix Hread Hc) in Hl.
      bind_inv Hl. bind_inv Hl.
      apply (IH a1); [|exact Hl].
      apply write_l1_pages in E0.
      apply (l2_words_ok_same_pages a0 a1 E0).
      eapply free_l2_shadow_words; eauto.
    + rewrite (free_children_round_other v a i e ix Hread Hfault Hcoarse) in Hl.
      discriminate.
Qed.

Lemma step_words (v : kvm_vcpu) (op : shadow_op) (v' : kvm_vcpu) :
  l2_words_ok v -> step v op = Ret v' -> l2_words_ok v'.
Proof.
  intros Hok Hs. destruct op; cbn [step] in Hs.
  - injection Hs as <-. unfold kvm_alloc_l1_shadow.
    destruct (negb (kmalloc_ok v)); [exact Hok|].
    destruct (get_free_pages2 v); exact Hok.
  - bind_inv Hs. injection Hs as <-. destruct a as [r v1].
    unfold map_gva_to_pfn in E.
    destruct ((priv_ap =? KVM_AP_NONE) && negb (user_ap =? KVM_AP_NONE));
      [injection E as _ <-; exact Hok|].
    destruct (if kvm_mmu_xp v then _ else _);
      [injection E as _ <-; exact Hok|].
    destruct (calc_aps priv_ap user_ap) as [calc_ap apx].
    eapply __map_gva_to_pfn_words; eauto.
  - bind_inv Hs. injection Hs as <-. destruct a as [r v1].
    unfold unmap_gva in E. bind_inv E.
    destruct (Z.land a L1_TYPE_MASK) as [|[[]|[]|]|];
      try (injection E as _ <-; exact Hok).
    destruct (get_l2_base a) as [ret [b|]].
    + bind_inv E. injection E as _ <-.
      eapply write_l2_words; [exact Hok| |exact E1]. left. reflexivity.
    + injection E as _ <-. exact Hok.
  - bind_inv Hs. injection Hs as <-. destruct a as [r v1].
    unfold unmap_gva_section in E. bind_inv E.
    destruct (Z.land a L1_TYPE_MASK) as [|[[]|[]|]|];
      try (injection E as _ <-; exact Hok).
    bind_inv E. bind_inv E. injection E as _ <-.
    apply write_l1_pages in E2.
    apply (l2_words_ok_same_pages a0 a1 E2).
    eapply free_l2_shadow_words; eauto.
  - unfold kvm_free_l1_shadow in Hs. bind_inv Hs. injection Hs as <-.
    apply (l2_words_ok_same_pages a); [reflexivity|].
    unfold free_l1_shadow_children in E.
    destruct (pgd shadow =? 0); [injection E as <-; exact Hok|].
    bind_inv E. injection E as <-.
    apply (l2_words_ok_same_pages a0); [reflexivity|].
    rewrite __free_l1_shadow_children_eq in E0.
    eapply free_children_loop_words; eauto.
Qed.

(** In every state a run of the manager reaches, a second-level word of
    type Fault is the zero word. *)
Lemma run_words (ops : list shadow_op) (v v' : kvm_vcpu) :
  l2_words_ok v -> run v ops = Ret v' -> l2_words_ok v'.
Proof.
  revert v. induction ops as [|op ops IH]; intros v Hok Hr; cbn [run] in Hr.
  - injection Hr as <-. exact Hok.
  - bind_inv Hr. eapply IH; [|exact Hr]. eapply step_words; eauto.
Qed.

Lemma no_shadow_words (v : kvm_vcpu) : no_shadow v -> l2_words_ok v.
Proof.
  intros (_ & Hp & _) p pg w Hpg. rewrite Hp, lookup_empty in Hpg. discriminate.
Qed.

End Words.

(** ** The special regions *)

Section SpecialRegion.
Context `{!KvmHost}.

Lemma slot_word (e : Z) : Z.shiftr (Z.land e 0xc00) 2 = 256 * l1_slot e.
Proof.
  rewrite l1_slot_alt. rewrite Z.mul_comm.
  change 256 with (2 ^ 8). rewrite <- Z.shiftl_mul_pow2 by lia.
  change 0xc00 with (Z.shiftl (Z.ones 2) 10). Z.bitblast.
Qed.

Lemma read_l2_write_l2 (v : kvm_vcpu) (ptr : l2_ptr) (d : Z) (v' : kvm_vcpu) :
  write_l2 v ptr d = Ret v' -> read_l2 v' ptr = Ret d.
Proof.
  unfold write_l2, read_l2. intros Hw.
  destruct (pages v !! ptr.1) as [pg|] eqn:Hpg; [|discriminate].
  destruct (ptr.2 <? 0) eqn:Hneg; [discriminate|].
  destruct (Z.of_nat (length (page_words pg)) <=? ptr.2) eqn:Hlen; [discriminate|].
  apply Ret_inj in Hw. subst v'.
  cbn [pages set_pages]. rewrite lookup_insert_eq. cbn [page_words].
  rewrite list_lookup_insert_eq by lia. reflexivity.
Qed.

Lemma read_l1_write_l1 (v : kvm_vcpu) (a i e0 e : Z) (v' : kvm_vcpu) :
  read_l1 v a i = Ret e0 -> write_l1 v a i e = Ret v' -> read_l1 v' a i = Ret e.
Proof.
  intros Hr Hw. apply read_l1_Ret in Hr as (t & Ha & Hi & He).
  apply write_l1_Ret in Hw as (t' & Ha' & ->).
  assert (t' = t) by congruence. subst t'.
  unfold read_l1. cbn [pgds set_pgds]. rewrite lookup_insert_eq.
  assert (Hneg : (i <? 0) = false) by lia. rewrite Hneg.
  rewrite list_lookup_insert_eq; [reflexivity|].
  eapply lookup_lt_Some. exact He.
Qed.

Lemma read_l1_after_write_l2 (v : kvm_vcpu) (ptr : l2_ptr) (d : Z)
    (v' : kvm_vcpu) (a i : Z) :
  write_l2 v ptr d = Ret v' -> read_l1 v' a i = read_l1 v a i.
Proof.
  intros Hw. apply write_l2_frame in Hw as (Hg & _). unfold read_l1.
  rewrite Hg. reflexivity.
Qed.

(** Inside the two special regions the part of [__map_gva_to_pfn] before
    [skip_domain_check] settles on the special domain; the permissions go
    through [dom_to_ap] unless the caller named the special domain. *)
Lemma special_domain_check_region (v : kvm_vcpu) (gva domain ap apx : Z) :
  in_special_region v gva ->
  special_domain_check v gva domain ap apx
  = (KVM_SPECIAL_DOMAIN,
     (if domain =? KVM_SPECIAL_DOMAIN then (ap, apx)
      else dom_to_ap v domain ap apx).1,
     (if domain =? KVM_SPECIAL_DOMAIN then (ap, apx)
      else dom_to_ap v domain ap apx).2).
Proof.
  intros Hreg. unfold special_domain_check.
  destruct (domain =? KVM_SPECIAL_DOMAIN) eqn:Hd.
  - apply Z.eqb_eq in Hd. subst domain. reflexivity.
  - destruct (dom_to_ap v domain ap apx) as [ap' apx'].
    destruct (Z.shiftr gva 20 =? Z.shiftr SHARED_PAGE_BASE 20) eqn:Hs;
      [reflexivity|].
    destruct Hreg as [Hreg | Hreg]; [apply Z.eqb_neq in Hs; contradiction|].
    rewrite Hreg, Z.eqb_refl. reflexivity.
Qed.

(** C8, as the code has it.  An install that succeeds at an address in one
    of the two special regions leaves the first-level entry Coarse with the
    special domain, and the second-level entry with the access-permission
    bits and the APX bit that [dom_to_ap] gives for the domain of the
    caller; a caller that names the special domain itself gets its own bits
    stored, [dom_to_ap] is not applied. *)
Theorem special_region_install (v : kvm_vcpu)
    (a gva pfn domain ap apx xn : Z) (v' : kvm_vcpu) :
  host_allocator_ok -> shadow_inv v -> in_special_region v gva ->
  __map_gva_to_pfn v a gva pfn domain ap apx xn = Ret (0, v') ->
  exists e' d,
    read_l1 v' a (Z.shiftr gva 20) = Ret e'
    /\ l1_is_coarse e' = true
    /\ l1_domain e' = KVM_SPECIAL_DOMAIN
    /\ read_l2 v' (shadow_l2_ptr e' gva) = Ret d
    /\ Z.land (Z.shiftr d 4) 0x3
       = Z.land (if domain =? KVM_SPECIAL_DOMAIN then (ap, apx)
                 else dom_to_ap v domain ap apx).1 0x3
    /\ Z.land (Z.shiftr d 9) 0x1
       = Z.land (if domain =? KVM_SPECIAL_DOMAIN then (ap, apx)
                 else dom_to_ap v domain ap apx).2 0x1.
Proof.
  intros [Hpage _] HI Hreg. unfold __map_gva_to_pfn.
  rewrite (special_domain_check_region v gva domain ap apx Hreg).
  set (ap' := (if domain =? KVM_SPECIAL_DOMAIN then (ap, apx)
               else dom_to_ap v domain ap apx).1).
  set (apx' := (if domain =? KVM_SPECIAL_DOMAIN then (ap, apx)
                else dom_to_ap v domain ap apx).2).
  set (nG := if (Z.land gva PAGE_MASK =? SHARED_PAGE_BASE) || (TASK_SIZE <? gva)
             then 0 else 1).
  assert (HnG : nG = 0 \/ nG = 1) by (subst nG; destruct (_ || _); auto).
  destruct (l2_descriptor_fields pfn xn ap' apx' nG HnG) as (_ & Hap & Hapx).
  intros Hm. bind_inv Hm. rename a0 into e0. pose proof E as Hread.
  bind_inv Hm. destruct a0 as [[ret l2b] v1].
  destruct l2b as [b|]; [|apply Ret_inj in Hm; injection Hm as -> ->].
  - bind_inv Hm. apply Ret_inj in Hm. injection Hm as <-. rename a0 into v2.
    assert (Hl1 : exists e', read_l1 v1 a (Z.shiftr gva 20) = Ret e'
              /\ l1_is_coarse e' = true /\ l1_domain e' = KVM_SPECIAL_DOMAIN
              /\ (b.1, b.2 + Z.land (Z.shiftr gva 12) 0xff) = shadow_l2_ptr e' gva).
    { destruct (Z.land e0 L1_TYPE_MASK) as [|[[]|[]|]|] eqn:Hty;
        try (apply Ret_inj in E0; discriminate E0).
      - (* Fault *)
        bind_inv E0. destruct a0 as [res v0].
        apply alloc_l2_shadow_Ret in E2
          as [[-> ->] | (p & w & -> & Hg & Hu & Hcase)];
          [apply Ret_inj in E0; discriminate E0|].
        bind_inv E0. apply Ret_inj in E0.
        assert (Hb : b = (p, w)) by congruence.
        assert (Hv1 : v1 = a0) by congruence. subst b v1. clear E0.
        assert (Hr0 : read_l1 v0 a (Z.shiftr gva 20) = Ret e0).
        { unfold read_l1 in Hread |- *. rewrite Hg. exact Hread. }
        assert (Hps : 0 <= p < 2 ^ 20 /\ exists s, 0 <= s < 4 /\ w = 256 * s).
        { destruct Hcase as [(HU & -> & Hfree & _) | (HU & _)].
          - destruct (Hpage v p Hfree) as [_ Hrange].
            split; [exact Hrange|]. exists 0. lia.
          - unfold shadow_inv in HI. rewrite HU in HI.
            destruct (inv_unused _ _ _ HI p w eq_refl) as (Hw & Hrange & _).
            split; [exact Hrange|].
            destruct Hw as [-> | [-> | ->]];
              [exists 1 | exists 2 | exists 3]; lia. }
        destruct Hps as (Hrange & s & Hs & ->).
        destruct (new_coarse_entry p s KVM_SPECIAL_DOMAIN Hrange Hs)
          as (Hco & Hfr & Hsl & Hdom).
        cbn [fst snd] in E2.
        eexists. split; [exact (read_l1_write_l1 _ _ _ _ _ _ Hr0 E2)|].
        split; [exact Hco|]. split; [exact Hdom|].
        unfold shadow_l2_ptr. rewrite slot_word. cbn [fst snd].
        unfold l1_frame in Hfr. rewrite Hfr, Hsl. reflexivity.
      - (* Coarse *)
        bind_inv E0.
        destruct (domain_update e0 KVM_SPECIAL_DOMAIN) as (Hco & Hfr & Hsl & Hdom).
        cbv zeta in Hco, Hfr, Hsl, Hdom.
        set (e' := Z.lor (Z.land e0 (Z.lnot L1_DOMAIN_MASK))
                     (Z.shiftl (Z.land KVM_SPECIAL_DOMAIN 0xf) L1_DOMAIN_SHIFT))
          in *.
        unfold get_l2_base in E0.
        destruct (negb (pfn_valid (Z.shiftr e' PAGE_SHIFT)));
          apply Ret_inj in E0; [discriminate E0|].
        assert (Hb : b = (Z.shiftr e' PAGE_SHIFT, Z.shiftr (Z.land e' 0xc00) 2))
          by congruence.
        assert (Hv1 : v1 = a0) by congruence. subst b v1. clear E0.
        exists e'. split; [exact (read_l1_write_l1 _ _ _ _ _ _ Hread E2)|].
        split; [rewrite Hco; apply type_coarse; exact Hty|].
        split; [exact Hdom|]. reflexivity. }
    destruct Hl1 as (e' & Hr1 & Hco & Hdom & Hptr).
    exists e', (l2_descriptor pfn xn ap' apx' nG).
    split; [rewrite (read_l1_after_write_l2 _ _ _ _ a _ E1); exact Hr1|].
    split; [exact Hco|]. split; [exact Hdom|].
    split; [rewrite <- Hptr; exact (read_l2_write_l2 _ _ _ _ E1)|].
    split; [exact Hap | exact Hapx].
  - (* no second-level table was reached: the result is not 0 *)
    exfalso.
    destruct (Z.land e0 L1_TYPE_MASK) as [|[[]|[]|]|] eqn:Hty;
      try (apply Ret_inj in E0; discriminate E0).
    + bind_inv E0. destruct a0 as [res v0].
      apply alloc_l2_shadow_Ret in E1
        as [[-> ->] | (p & w & -> & _)].
      * apply Ret_inj in E0. discriminate E0.
      * bind_inv E0. apply Ret_inj in E0. discriminate E0.
    + bind_inv E0. unfold get_l2_base in E0.
      destruct (negb (pfn_valid _)); apply Ret_inj in E0; discriminate E0.
Qed.

End SpecialRegion.

(** ** Where the domain resolution goes wrong *)

Section DomainSlips.
Context `{!KvmHost}.

Lemma l1_domain_range (e : Z) : 0 <= l1_domain e < 16.
Proof.
  assert (Halt : l1_domain e = Z.land (Z.shiftr e 5) (Z.ones 4)).
  { unfold l1_domain. change L1_DOMAIN_MASK with (Z.shiftl (Z.ones 4) 5).
    change L1_DOMAIN_SHIFT with 5. Z.bitblast. }
  rewrite Halt, Z.land_ones by lia. apply Z.mod_pos_bound. lia.
Qed.

(** [l1_domain_access] keeps only the low byte of the masked register:
    for the domains 4 to 15 it answers No-Access whatever the register
    holds. *)
Lemma l1_domain_access_truncated (v : kvm_vcpu) (l1_entry : Z) (mi : map_info) :
  is_supersection l1_entry = false -> 4 <= l1_domain l1_entry ->
  (l1_domain_access v l1_entry mi).1 = DOMAIN_NOACCESS.
Proof.
  intros Hsec Hd. unfold l1_domain_access. rewrite Hsec. cbn [fst].
  fold (l1_domain l1_entry). pose proof (l1_domain_range l1_entry) as Hr.
  set (d := l1_domain l1_entry) in *.
  assert (Hz : u8 (Z.land (c3_DACR v) (domain_val d DOMAIN_MANAGER)) = 0).
  { unfold u8, domain_val. rewrite <- Z.land_ones by lia.
    change DOMAIN_MANAGER with (Z.ones 2). Z.bitblast. }
  rewrite Hz. apply Z.shiftr_0_l.
Qed.

(** [mapping_is_guest_writable] switches on the register shifted down but
    not masked; the special domain sits in its top field, so for every
    other domain no case of the switch is taken. *)
Lemma mapping_is_guest_writable_unmasked (v : kvm_vcpu) (domain pte : Z) :
  0 <= domain < 15 -> mapping_is_guest_writable v domain pte = Ret false.
Proof.
  intros Hd. unfold mapping_is_guest_writable.
  assert (Hle : (15 <? domain) = false) by lia. rewrite Hle.
  set (z := Z.shiftr _ (domain * 2)).
  assert (Hbit : Z.testbit z (30 - 2 * domain) = true).
  { subst z. unfold domain_val. change KVM_SPECIAL_DOMAIN with 15.
    change DOMAIN_CLIENT with (Z.ones 1).
    rewrite Z.shiftr_spec, Z.lor_spec, Z.shiftl_spec by lia.
    replace (30 - 2 * domain + domain * 2 - 2 * 15) with 0 by lia.
    rewrite orb_true_r. reflexivity. }
  assert (H3 : z <> 3).
  { intros Hz. rewrite Hz in Hbit. change 3 with (Z.ones 2) in Hbit.
    rewrite Z.ones_spec_high in Hbit by lia. discriminate. }
  assert (H1 : z <> 1).
  { intros Hz. rewrite Hz in Hbit. change 1 with (Z.ones 1) in Hbit.
    rewrite Z.ones_spec_high in Hbit by lia. discriminate. }
  destruct z as [|[[]|[]|]|]; try reflexivity; congruence.
Qed.

End DomainSlips.

(** ** The theorems on the concrete host *)

Lemma root0_inv (dacr : Z) : shadow_inv (root0 dacr).
Proof.
  apply kvm_alloc_l1_shadow_inv; [exact arm_host_allocator_ok|].
  apply no_shadow_inv. repeat split.
Qed.

(** C3 as stated fails: an install that meets a Section entry in the
    shadow root returns [-EFAULT] to its caller, it does not stop. *)
Lemma install_on_section_entry_returns :
  map_gva_to_pfn (root0_with 0 0 2) root0_pgd 0x1000 0x1234 0 2 2 0
  = Ret (- EFAULT, root0_with 0 0 2).
Proof. vm_compute. reflexivity. Qed.

(** The theorem of C3 on the same root: [unmap_gva] returns [-EFAULT],
    freeing the children does not return. *)
Lemma unexpected_descriptors_witness :
  unmap_gva (root0_with 0 0 2) root0_pgd 0x1000 = Ret (- EFAULT, root0_with 0 0 2)
  /\ forall v', free_l1_shadow_children (root0_with 0 0 2) root0_pgd <> Ret v'.
Proof.
  destruct (@unexpected_descriptors arm_host) as (H1 & H2 & _).
  split.
  - apply (H1 (root0_with 0 0 2) root0_pgd 0x1000 2);
      vm_compute; first [reflexivity | congruence].
  - eapply (H2 (root0_with 0 0 2) root0_pgd _ 0%nat 2);
      vm_compute; first [reflexivity | congruence | lia].
Defined.

(** The theorem of C10 after an install and an unmap of the same page: an
    [unmap_gva] in a megabyte that was never mapped, a second [unmap_gva] of
    the page and a switch to the low vectors, already in use, change
    nothing. *)
Lemma unmap_and_switch_idempotent_witness :
  exists v, run (vcpu0 XP_ON 0 ∅) ops_map_unmap = Ret v
    /\ unmap_gva v root0_pgd 0x00300000 = Ret (0, v)
    /\ unmap_gva v root0_pgd 0x00100000 = Ret (0, v)
    /\ kvm_switch_host_vectors v 0 = Ret (0, v).
Proof.
  destruct (@unmap_and_switch_idempotent arm_host) as (H1 & H2 & H3).
  eexists. split; [vm_compute; reflexivity|]. split.
  { eapply (H1 _ root0_pgd 0x00300000 0); vm_compute; reflexivity. }
  split.
  - eapply (H2 _ root0_pgd 0x00100000 _ 0).
    + eapply (run_words ops_map_unmap (vcpu0 XP_ON 0 ∅)).
      * apply no_shadow_words. repeat split.
      * vm_compute. reflexivity.
    + vm_compute. reflexivity.
    + vm_compute. reflexivity.
    + vm_compute. reflexivity.
    + vm_compute. reflexivity.
    + reflexivity.
  - apply H3. reflexivity.
Defined.

(** C8 as stated fails for a caller that names the special domain, as
    the initialisation of a root does for the shared page: the entry gets
    the bits of the caller (privileged read-write, user none: 01), where
    [dom_to_ap] would give 00 since the guest leaves domain 15 No-Access. *)
Lemma special_domain_caller_not_converted :
  installed_fields
    (map_gva_to_pfn (root0 0) root0_pgd 0xffff1000 0x1234 KVM_SPECIAL_DOMAIN 2 0 0)
    root0_pgd 0xffff1000
  = Some (KVM_SPECIAL_DOMAIN, 1, 0)
  /\ dom_to_ap (root0 0) KVM_SPECIAL_DOMAIN 0x55 0 = (0, 0).
Proof. vm_compute. split; reflexivity. Qed.

(** The theorem of C8 for a guest page of domain 0, which the register
    makes Manager, installed in the megabyte of the shared page. *)
Lemma special_region_install_witness :
  exists v' e' d,
    __map_gva_to_pfn (root0 0x3) root0_pgd 0xffff2000 0x1234 0 0x55 0 0
      = Ret (0, v')
    /\ read_l1 v' root0_pgd (Z.shiftr 0xffff2000 20) = Ret e'
    /\ l1_domain e' = KVM_SPECIAL_DOMAIN
    /\ read_l2 v' (shadow_l2_ptr e' 0xffff2000) = Ret d
    /\ Z.land (Z.shiftr d 4) 0x3 = 0x3.
Proof.
  eexists.
  assert (Hrun : __map_gva_to_pfn (root0 0x3) root0_pgd 0xffff2000 0x1234 0 0x55 0 0
                 = Ret (0, ?[v'])) by (vm_compute; reflexivity).
  destruct (special_region_install (root0 0x3) root0_pgd 0xffff2000 0x1234 0 0x55
              0 0 _ arm_host_allocator_ok (root0_inv 0x3)
              ltac:(left; reflexivity) Hrun)
    as (e' & d & Hr1 & _ & Hdom & Hr2 & Hap & _).
  assert (Hd : (if 0 =? KVM_SPECIAL_DOMAIN then (0x55, 0)
                else dom_to_ap (root0 0x3) 0 0x55 0).1 = 0xff)
    by (vm_compute; reflexivity).
  rewrite Hd in Hap.
  exists e', d. split; [exact Hrun|]. split; [exact Hr1|].
  split; [exact Hdom|]. split; [exact Hr2 | exact Hap].
Defined.

(** The theorem of C9 on a virtual CPU whose control register has the M
    bit clear. *)
Lemma gva_to_gfn_mmu_disabled_witness :
  gva_to_gfn (vcpu0 0 0 ∅) 0x12345678 0 0 (MapInfo 0 0 0 0 0)
  = Ret (0, 0x12345, MapInfo 0 0xff 0 0 0x0c).
Proof.
  exact (gva_to_gfn_mmu_disabled (vcpu0 0 0 ∅) 0x12345678 0 0
           (MapInfo 0 0 0 0 0) eq_refl).
Defined.
